(** * asm2362_identify: the ASMedia 0xE6 NVMe Identify session

    A shallow embedding of [asm2362_identify.py]: the Command Block Wrapper
    built by [send_nvme_identify], the bulk transfers it issues, the decoder
    [parse_identify], the vendor table [VENDORS] and the part of [main] that
    runs from "Sending NVMe Identify command..." to the raw hex dump.

    Python values are modelled as follows.
    - [bytes]      : [list byte] (the 256-constructor type of the standard
                     library), so a byte is in range by typing;
    - [int]        : [Z];
    - [str]        : [string];
    - an exception : the [Raise] constructor of [result];
    - the USB endpoints, the clock and the console: a [world] threaded
      through the monad [M]. *)

From Stdlib Require Import ZArith List Bool Lia.
From Stdlib Require Import Strings.Byte Strings.Ascii Strings.String Strings.HexString.
From stdpp Require Import base option list strings gmap.

Local Open Scope Z_scope.

(** ** Exceptions and results *)

(** The exception classes the program can meet.  [USBTimeoutError] is a
    subclass of [usb.core.USBError]; [SystemExit] is what [sys.exit] raises. *)
Inductive exn : Type :=
| USBError (msg : string)
| USBTimeoutError (msg : string)
| StructError (msg : string)
| ValueError (msg : string)
| IndexError (msg : string)
| SystemExit (code : Z).

(** [isinstance(e, usb.core.USBError)], with [str(e)] when it holds. *)
Definition as_USBError (e : exn) : option string :=
  match e with
  | USBError msg | USBTimeoutError msg => Some msg
  | _ => None
  end.

Inductive result (A : Type) : Type :=
| Ok (a : A)
| Raise (e : exn).
Arguments Ok {A} a.
Arguments Raise {A} e.

Definition rbind {A B} (r : result A) (k : A -> result B) : result B :=
  match r with
  | Ok a => k a
  | Raise e => Raise e
  end.

Declare Scope result_scope.
Delimit Scope result_scope with res.
Notation "'let*' x := r 'in' k" := (rbind r (fun x => k))
  (at level 10, x name, r at level 200, k at level 200) : result_scope.

(** ** Bytes *)

Definition byte_val (b : byte) : Z := Z.of_N (Byte.to_N b).

(** The byte whose value is [z mod 256]. *)
Definition byte_of_Z (z : Z) : byte :=
  default x00 (Byte.of_N (Z.to_N (z mod 256))).

(** [bytes(n)]: [n] zero bytes, [ValueError] for a negative count. *)
Definition py_bytes (n : Z) : result (list byte) :=
  if n <? 0 then Raise (ValueError "negative count")
  else Ok (replicate (Z.to_nat n) x00).

(** [len(b)] *)
Definition len {A} (l : list A) : Z := Z.of_nat (length l).

(** ** struct.pack, little-endian standard sizes *)

Fixpoint le_bytes (n : nat) (v : Z) : list byte :=
  match n with
  | O => []
  | S n' => byte_of_Z v :: le_bytes n' (Z.shiftr v 8)
  end.

(** The unsigned integer a little-endian byte string stands for. *)
Fixpoint le_value (bs : list byte) : Z :=
  match bs with
  | [] => 0
  | b :: bs' => byte_val b + 256 * le_value bs'
  end.

(** One unsigned field of [n] bytes; [struct.error] when the argument does
    not fit. *)
Definition pack_uint (n : nat) (v : Z) : result (list byte) :=
  if (0 <=? v) && (v <? 2 ^ (8 * Z.of_nat n)) then Ok (le_bytes n v)
  else Raise (StructError "argument out of range").

(** [struct.pack('<IIIBBB', a, b, c, d, e, f)] *)
Definition struct_pack_IIIBBB (a b c d e f : Z) : result (list byte) :=
  (let* ba := pack_uint 4 a in
   let* bb := pack_uint 4 b in
   let* bc := pack_uint 4 c in
   let* bd := pack_uint 1 d in
   let* be := pack_uint 1 e in
   let* bf := pack_uint 1 f in
   Ok (ba ++ bb ++ bc ++ bd ++ be ++ bf))%res.

(** ** The Command Block Wrapper *)

Definition CBW_SIGNATURE : Z := 0x43425355.

(** The command descriptor block of [send_nvme_identify]:
    [bytes([0xE6, 0x06, 0x00, 0x01] + [0x00] * 12)]. *)
Definition identify_cdb : list byte :=
  [xe6; x06; x00; x01] ++ replicate 12 x00.

(** The two statements of [send_nvme_identify] that build [cbw] from its
    locals [tag] and [cdb]:
<<
    cbw = struct.pack('<IIIBBB', CBW_SIGNATURE, tag, 4096, 0x80, 0, len(cdb))
    cbw += cdb + bytes(16 - len(cdb))
>> *)
Definition build_cbw (tag : Z) (cdb : list byte) : result (list byte) :=
  (let* cbw := struct_pack_IIIBBB CBW_SIGNATURE tag 4096 0x80 0 (len cdb) in
   let* pad := py_bytes (16 - len cdb) in
   Ok (cbw ++ (cdb ++ pad)))%res.

(** [tag = int(time.time() * 1000) & 0xFFFFFFFF], from the clock reading
    [now_ms = int(time.time() * 1000)]. *)
Definition tag_of_ms (now_ms : Z) : Z := Z.land now_ms 0xFFFFFFFF.

(** The 31 bytes of the wrapper that carries [identify_cdb], written out
    field by field; [build_cbw_identify] below shows that [build_cbw]
    computes them. *)
Definition cbw_image (tag : Z) : list byte :=
  [x55; x53; x42; x43]            (* signature *)
  ++ le_bytes 4 tag               (* tag *)
  ++ [x00; x10; x00; x00]         (* data transfer length *)
  ++ [x80]                        (* flags *)
  ++ [x00]                        (* lun *)
  ++ [x10]                        (* cdb length *)
  ++ identify_cdb.
Arguments cbw_image : simpl never.

(** ** struct.unpack_from and slices *)

(** [struct.unpack_from('<H', data, offset)[0]]; [struct.error] when fewer
    than two bytes are left at [offset]. *)
Definition unpack_from_H (data : list byte) (offset : nat) : result Z :=
  match data !! offset, data !! S offset with
  | Some b0, Some b1 => Ok (Z.lor (byte_val b0) (Z.shiftl (byte_val b1) 8))
  | _, _ => Raise (StructError "unpack_from requires a buffer of at least 2 bytes")
  end.

(** [data[a:b]] for constant bounds [0 <= a <= b]; like Python's slice it
    is clipped to the length of [data]. *)
Definition slice {A} (a b : nat) (data : list A) : list A :=
  take (b - a) (drop a data).

(** ** Text: lenient ASCII decoding and str.strip *)

Definition char_code (c : ascii) : Z := Z.of_N (N_of_ascii c).

(** [bs.decode('ascii', errors='ignore')]: a byte of 0x80 or more is not
    ASCII and is dropped; every byte below 0x80 becomes the character of the
    same code. *)
Fixpoint decode_ascii_ignore (bs : list byte) : string :=
  match bs with
  | [] => EmptyString
  | b :: bs' =>
      if byte_val b <? 128 then String (ascii_of_byte b) (decode_ascii_ignore bs')
      else decode_ascii_ignore bs'
  end.

(** [c.isspace()] for a character of code below 256: TAB, LF, VT, FF, CR,
    the separators FS, GS, RS, US, the space, NEL and the no-break space. *)
Definition py_isspace (c : ascii) : bool :=
  let n := char_code c in
  ((9 <=? n) && (n <=? 13)) || ((28 <=? n) && (n <=? 32))
  || (n =? 0x85) || (n =? 0xA0).

Fixpoint lstrip (s : string) : string :=
  match s with
  | EmptyString => EmptyString
  | String c s' => if py_isspace c then lstrip s' else s
  end.

Fixpoint rstrip (s : string) : string :=
  match s with
  | EmptyString => EmptyString
  | String c s' =>
      match rstrip s' with
      | EmptyString => if py_isspace c then EmptyString else String c EmptyString
      | r => String c r
      end
  end.

(** [s.strip()] *)
Definition strip (s : string) : string := rstrip (lstrip s).

(** ** parse_identify *)

(** The dict returned by [parse_identify], one field per key. *)
Record identify : Type := Identify {
  vid : Z;
  ssvid : Z;
  serial : string;
  model : string;
  firmware : string;
}.

(** [not data] for a bytes object *)
Definition is_empty {A} (l : list A) : bool :=
  match l with [] => true | _ => false end.

Definition parse_identify (data : list byte) : result (option identify) :=
  if is_empty data || (len data <? 72) then Ok None
  else
    (let* v := unpack_from_H data 0 in
     let* sv := unpack_from_H data 2 in
     Ok (Some {| vid := v;
                 ssvid := sv;
                 serial := strip (decode_ascii_ignore (slice 4 24 data));
                 model := strip (decode_ascii_ignore (slice 24 64 data));
                 firmware := strip (decode_ascii_ignore (slice 64 72 data)) |}))%res.

(** ** The vendor table *)

Definition VENDORS : gmap Z string :=
  list_to_map
    [ (0x1987, "Phison"%string);
      (0x144d, "Samsung"%string);
      (0x15b7, "SanDisk/Western Digital"%string);
      (0x1e0f, "Kioxia"%string);
      (0x1c5c, "SK Hynix"%string);
      (0x126f, "Silicon Motion"%string);
      (0x1179, "Toshiba"%string);
      (0x2646, "Kingston"%string);
      (0x1dee, "Biwin"%string);
      (0x1e4b, "Maxio"%string);
      (0x1d97, "Shenzhen Longsys"%string);
      (0x025e, "Solidigm"%string);
      (0x8086, "Intel"%string);
      (0x1344, "Micron"%string);
      (0x1cc1, "ADATA"%string);
      (0xc0a9, "Micron"%string);
      (0x1d79, "Transcend"%string) ].

(** [VENDORS.get(vid, "Unknown")] *)
Definition vendor_name (v : Z) : string :=
  default "Unknown"%string (VENDORS !! v).

(** ** Formatting helpers *)

Definition nl : string := String "010"%char EmptyString.

(** [s * n] *)
Fixpoint str_repeat (s : string) (n : nat) : string :=
  match n with
  | O => EmptyString
  | S n' => s +:+ str_repeat s n'
  end.

Definition hex_raw (n : Z) : string :=
  match n with
  | Z0 => "0"%string
  | Zpos p => HexString.Raw.of_pos p EmptyString
  | Zneg p => HexString.Raw.of_pos p EmptyString
  end.

(** [format(n, '0<width>x')]: lower-case hexadecimal, zero-filled to [width]
    characters, the sign (if any) first. *)
Definition format_x (width : nat) (n : Z) : string :=
  let digits := hex_raw n in
  let sign := if n <? 0 then "-"%string else EmptyString in
  sign +:+ str_repeat "0" (width - String.length sign - String.length digits) +:+ digits.

(** ** Ranges and indexing *)

(** [range(start, stop)] *)
Definition py_range (start stop : Z) : list Z :=
  map (fun k => start + Z.of_nat k) (seq 0 (Z.to_nat (stop - start))).

(** [range(start, stop, step)] for a positive [step] *)
Definition py_range_step (start stop step : Z) : list Z :=
  map (fun k => start + Z.of_nat k * step)
      (seq 0 (Z.to_nat ((stop - start + step - 1) / step))).

(** [data[j]]: a negative index counts from the end, an index out of range
    raises [IndexError]. *)
Definition py_getitem (data : list byte) (j : Z) : result byte :=
  let k := if j <? 0 then j + len data else j in
  if (k <? 0) || (len data <=? k) then Raise (IndexError "index out of range")
  else match data !! Z.to_nat k with
       | Some b => Ok b
       | None => Raise (IndexError "index out of range")
       end.

Fixpoint mapM_result {A B} (f : A -> result B) (l : list A) : result (list B) :=
  match l with
  | [] => Ok []
  | x :: l' => (let* y := f x in let* ys := mapM_result f l' in Ok (y :: ys))%res
  end.

(** ** The raw-data dump of [main] *)

(** The indices the row starting at [i] reads:
    [range(i, min(i+16, len(data)))]. *)
Definition row_range (data : list byte) (i : Z) : list Z :=
  py_range i (Z.min (i + 16) (len data)).

(** [f'{data[j]:02x}'] *)
Definition hex_cell (data : list byte) (j : Z) : result string :=
  (let* b := py_getitem data j in Ok (format_x 2 (byte_val b)))%res.

(** [chr(data[j]) if 32 <= data[j] < 127 else '.']: the condition reads
    [data[j]] and the true branch reads it again. *)
Definition ascii_cell (data : list byte) (j : Z) : result string :=
  (let* b := py_getitem data j in
   if (32 <=? byte_val b) && (byte_val b <? 127)
   then let* b' := py_getitem data j in Ok (String (ascii_of_byte b') EmptyString)
   else Ok "."%string)%res.

(** One iteration of [for i in range(0, 80, 16)]: the line it prints. *)
Definition dump_row (data : list byte) (i : Z) : result string :=
  (let* hex_part := mapM_result (hex_cell data) (row_range data i) in
   let* ascii_part := mapM_result (ascii_cell data) (row_range data i) in
   Ok ("  " +:+ format_x 4 i +:+ ": " +:+ String.concat " " hex_part
       +:+ "  " +:+ String.concat EmptyString ascii_part))%res.

(** The starts of the rows: [range(0, 80, 16)]. *)
Definition dump_starts : list Z := py_range_step 0 80 16.

(** ** The world: endpoints, clock and console *)

(** The two pyusb endpoint objects [ep_out] and [ep_in] of one device.  A
    transfer returns its result (or the exception it raises) and the next
    state of the device.  [ep_out_write d data timeout] is
    [ep_out.write(data, timeout=timeout)], [ep_in_read d size timeout] is
    [ep_in.read(size, timeout=timeout)]. *)
Class BulkEndpoints (dev : Type) : Type := {
  ep_out_write : dev -> list byte -> Z -> result Z * dev;
  ep_in_read : dev -> Z -> Z -> result (list byte) * dev;
}.

(** What the program does to the outside, in order. *)
Inductive event : Type :=
| EvWrite (data : list byte) (timeout : Z)
| EvRead (size : Z) (timeout : Z)
| EvPrint (text : string).

Record world (dev : Type) : Type := World {
  w_dev : dev;
  w_now_ms : Z;            (* int(time.time() * 1000) *)
  w_trace : list event;
}.
Arguments World {dev} _ _ _.
Arguments w_dev {dev} _.
Arguments w_now_ms {dev} _.
Arguments w_trace {dev} _.

(** Computations that may raise and that act on the world. *)
Definition M (dev A : Type) : Type := world dev -> result A * world dev.

Declare Scope io_scope.
Delimit Scope io_scope with io.

Section Session.
Context {dev : Type} `{!BulkEndpoints dev}.

Definition ret {A} (a : A) : M dev A := fun w => (Ok a, w).

Definition bind {A B} (m : M dev A) (k : A -> M dev B) : M dev B :=
  fun w => match m w with
           | (Ok a, w') => k a w'
           | (Raise e, w') => (Raise e, w')
           end.

Definition raise {A} (e : exn) : M dev A := fun w => (Raise e, w).

Definition lift {A} (r : result A) : M dev A := fun w => (r, w).

Definition log (ev : event) (w : world dev) : world dev :=
  World (w_dev w) (w_now_ms w) (w_trace w ++ [ev]).

Definition set_dev (d : dev) (w : world dev) : world dev :=
  World d (w_now_ms w) (w_trace w).

(** [print(text)] *)
Definition print (text : string) : M dev unit :=
  fun w => (Ok tt, log (EvPrint text) w).

(** [sys.exit(code)] *)
Definition sys_exit {A} (code : Z) : M dev A := raise (SystemExit code).

(** [int(time.time() * 1000)] *)
Definition time_ms : M dev Z := fun w => (Ok (w_now_ms w), w).

(** [ep_out.write(data, timeout=timeout)] *)
Definition write (data : list byte) (timeout : Z) : M dev Z :=
  fun w => let '(r, d) := ep_out_write (w_dev w) data timeout in
           (r, set_dev d (log (EvWrite data timeout) w)).

(** [ep_in.read(size, timeout=timeout)] *)
Definition read (size timeout : Z) : M dev (list byte) :=
  fun w => let '(r, d) := ep_in_read (w_dev w) size timeout in
           (r, set_dev d (log (EvRead size timeout) w)).

(** [try: body  except usb.core.USBError as e: handler(str(e))] *)
Definition try_except_USBError {A}
    (body : M dev A) (handler : string -> M dev A) : M dev A :=
  fun w => match body w with
           | (Ok a, w') => (Ok a, w')
           | (Raise e, w') =>
               match as_USBError e with
               | Some msg => handler msg w'
               | None => (Raise e, w')
               end
           end.

Notation "'let*' x := m 'in' k" := (bind m (fun x => k))
  (at level 10, x name, m at level 200, k at level 200) : io_scope.
Notation "m ;; k" := (bind m (fun _ => k))
  (at level 100, k at level 200, right associativity) : io_scope.

(** *** send_nvme_identify *)

Definition send_nvme_identify : M dev (option (list byte)) :=
  (let* now := time_ms in
   let tag := tag_of_ms now in
   let cdb := identify_cdb in
   let* cbw := lift (build_cbw tag cdb) in
   try_except_USBError
     (let* _w := write cbw 5000 in
      let* data := read 4096 5000 in
      let* _csw := read 13 5000 in      (* Command Status Wrapper *)
      ret (Some data))
     (fun msg =>
        print ("USB Error: " +:+ msg) ;;
        ret None))%io.

(** *** main, from "Sending NVMe Identify command..." on

    The part of [main] before it (the root check, device discovery,
    driver detach, interface claim and reset) only produces the two
    endpoints; it is not embedded.  [main_after_send data] is [main] from
    the statement after [data = send_nvme_identify(ep_out, ep_in)]. *)

(** [not data] for [data] of type Optional[bytes] *)
Definition not_data (data : option (list byte)) : bool :=
  match data with
  | None => true
  | Some bs => is_empty bs
  end.

(** [not result or result['vid'] in (0, 0xFFFF)] *)
Definition invalid_result (result : option identify) : bool :=
  match result with
  | None => true
  | Some r => (vid r =? 0) || (vid r =? 0xFFFF)
  end.

Fixpoint for_each {A} (l : list A) (body : A -> M dev unit) : M dev unit :=
  match l with
  | [] => ret tt
  | x :: l' => (body x ;; for_each l' body)%io
  end.

(** The loop [for i in range(0, 80, 16): ... print(...)] of [main]. *)
Definition dump_loop (data : list byte) : M dev unit :=
  for_each dump_starts
    (fun i => let* line := lift (dump_row data i) in print line)%io.

Definition report (r : identify) : string :=
  nl +:+ "  Model:         " +:+ model r +:+ nl
  +:+ "  Serial:        " +:+ serial r +:+ nl
  +:+ "  Firmware:      " +:+ firmware r +:+ nl
  +:+ "  " +:+ nl
  +:+ "  Controller:    " +:+ vendor_name (vid r)
      +:+ " (VID: 0x" +:+ format_x 4 (vid r) +:+ ")" +:+ nl
  +:+ "  Subsystem:     0x" +:+ format_x 4 (ssvid r) +:+ nl.

Definition main_after_send (data : option (list byte)) : M dev unit :=
  (if not_data data then
     print (nl +:+ "ERROR: No response from drive") ;;
     sys_exit 1
   else
     let bs := default [] data in
     let* result := lift (parse_identify bs) in
     if invalid_result result then
       print (nl +:+ "ERROR: Invalid response - firmware may be blocking identify") ;;
       sys_exit 1
     else
       match result with
       | None => ret tt   (* excluded by [invalid_result] *)
       | Some r =>
           print (nl +:+ str_repeat "=" 65) ;;
           print "  REAL SSD IDENTITY" ;;
           print (str_repeat "=" 65) ;;
           print (report r) ;;
           print (str_repeat "=" 65) ;;
           print (nl +:+ "Raw data (first 80 bytes):") ;;
           dump_loop bs ;;
           print (nl +:+ "Remount drive with: diskutil mountDisk /dev/diskN")
       end)%io.

(** How [main] ends on an invalid response: the message, then
    [sys.exit(1)]. *)
Definition invalid_response_exit (w : world dev) : result unit * world dev :=
  (Raise (SystemExit 1),
   log (EvPrint (nl +:+ "ERROR: Invalid response - firmware may be blocking identify")) w).

Definition main_from_send : M dev unit :=
  (print (nl +:+ "Sending NVMe Identify command...") ;;
   let* data := send_nvme_identify in
   main_after_send data)%io.

(** The events a computation adds to the trace are those after the
    ones already there. *)
Definition new_events (w w' : world dev) : list event :=
  drop (length (w_trace w)) (w_trace w').

End Session.

(** The bulk-IN requests and the bulk-OUT payloads among some events. *)
Definition reads_of (evs : list event) : list Z :=
  omap (fun ev => match ev with EvRead n _ => Some n | _ => None end) evs.

Definition writes_of (evs : list event) : list (list byte) :=
  omap (fun ev => match ev with EvWrite d _ => Some d | _ => None end) evs.

Definition prints_of (evs : list event) : list string :=
  omap (fun ev => match ev with EvPrint s => Some s | _ => None end) evs.

(** ** A scripted device, to run the session on concrete transfers

    The write answers [sim_write_result] every time; each read takes the
    next answer of [sim_reads] and times out once they are used up. *)
Record sim_dev : Type := SimDev {
  sim_write_result : result Z;
  sim_reads : list (result (list byte));
}.

#[export] Instance sim_endpoints : BulkEndpoints sim_dev := {|
  ep_out_write d _ _ := (sim_write_result d, d);
  ep_in_read d _ _ :=
    match sim_reads d with
    | [] => (Raise (USBTimeoutError "Operation timed out"), d)
    | r :: rest => (r, SimDev (sim_write_result d) rest)
    end;
|}.

Definition sim_world (d : sim_dev) (now_ms : Z) : world sim_dev :=
  World d now_ms [].

(** ** Statements about text fields *)

(** [t] is what is left of the bytes [raw] once every byte of 0x80 or more
    is dropped and the white space at both ends is removed: the kept
    characters are [pre ++ t ++ suf] with [pre] and [suf] white space only,
    and [t] neither starts nor ends with white space. *)
Definition trimmed_text (raw : list byte) (t : string) : Prop :=
  exists pre suf : list ascii,
    List.map ascii_of_byte (List.filter (fun b => byte_val b <? 128) raw)
    = pre ++ list_ascii_of_string t ++ suf
    /\ Forall (fun c => py_isspace c = true) pre
    /\ Forall (fun c => py_isspace c = true) suf
    /\ (forall c, head (list_ascii_of_string t) = Some c -> py_isspace c = false)
    /\ (forall c, last (list_ascii_of_string t) = Some c -> py_isspace c = false).

(** The text field as the specification words it: the bytes outside the
    printable range 0x20..0x7E are discarded and the trailing spaces (and
    NULs, already discarded) are trimmed. *)
Definition spec_printable (b : byte) : bool :=
  (32 <=? byte_val b) && (byte_val b <=? 126).

Fixpoint spec_rtrim (s : string) : string :=
  match s with
  | EmptyString => EmptyString
  | String c s' =>
      match spec_rtrim s' with
      | EmptyString =>
          if (char_code c =? 32) || (char_code c =? 0) then EmptyString
          else String c EmptyString
      | r => String c r
      end
  end.

Definition spec_text_field (raw : list byte) : string :=
  spec_rtrim (string_of_list_ascii
                (List.map ascii_of_byte (List.filter spec_printable raw))).

(** ** Concrete buffers *)

(** [s.encode('ascii')] *)
Definition ascii_bytes (s : string) : list byte :=
  List.map byte_of_ascii (list_ascii_of_string s).

(** 4096 zero bytes. *)
Definition zero_buffer : list byte := replicate 4096 x00.

(** An Identify structure of a Samsung controller: vendor 0x144d, the
    model number padded with spaces to 40 bytes. *)
Definition samsung_buffer : list byte :=
  [x4d; x14; x4d; x14]
  ++ ascii_bytes "S5GXNF0R123456      "
  ++ ascii_bytes "Samsung SSD 990 PRO 1TB" ++ replicate 17 x20
  ++ ascii_bytes "4B2QJXD7"
  ++ replicate 4024 x00.

(** 72 bytes whose serial number is "AB" padded with NUL bytes. *)
Definition nul_padded_buffer : list byte :=
  [x86; x80; x86; x80]
  ++ ascii_bytes "AB" ++ replicate 18 x00
  ++ ascii_bytes "Model X" ++ replicate 33 x20
  ++ ascii_bytes "1.0     ".

(** A status wrapper of 13 bytes with the signature 0x53425355. *)
Definition good_csw : list byte :=
  [x55; x53; x42; x53] ++ replicate 9 x00.

(** ** Concrete sessions *)

(** The device accepts the write and returns an Identify structure; the
    status read then returns two bytes. *)
Definition world_short_csw : world sim_dev :=
  sim_world (SimDev (Ok 31) [Ok samsung_buffer; Ok [xde; xad]]) 0.

(** As above, with a status of 13 bytes 0xFF. *)
Definition world_bad_signature : world sim_dev :=
  sim_world (SimDev (Ok 31) [Ok samsung_buffer; Ok (replicate 13 xff)]) 0.

(** The write times out. *)
Definition world_write_timeout : world sim_dev :=
  sim_world (SimDev (Raise (USBTimeoutError "Operation timed out"))
                    [Ok samsung_buffer; Ok good_csw]) 1700000000000.

(** The data phase returns 4096 zero bytes. *)
Definition world_zero_response : world sim_dev :=
  sim_world (SimDev (Ok 31) [Ok zero_buffer; Ok good_csw]) 0.

(** The data phase returns 71 zero bytes. *)
Definition world_short_response : world sim_dev :=
  sim_world (SimDev (Ok 31) [Ok (replicate 71 x00); Ok good_csw]) 0.

(** The bulk transfers among some events, console lines left out. *)
Definition transfers_of (evs : list event) : list event :=
  List.filter (fun ev => match ev with EvPrint _ => false | _ => true end) evs.

(** The three transfers of a complete round trip on a wrapper [cbw]. *)
Definition round_trip (cbw : list byte) : list event :=
  [EvWrite cbw 5000; EvRead 4096 5000; EvRead 13 5000].

(** The data phase fails with a time-out after the write is accepted. *)
Definition world_data_timeout : world sim_dev :=
  sim_world (SimDev (Ok 31) [Raise (USBTimeoutError "Operation timed out");
                             Ok good_csw]) 0.

(** The write raises an exception that is not a [USBError]. *)
Definition world_write_value_error : world sim_dev :=
  sim_world (SimDev (Raise (ValueError "Invalid endpoint address"))
                    [Ok samsung_buffer; Ok good_csw]) 0.

(** A complete round trip that returns an Identify structure. *)
Definition world_samsung : world sim_dev :=
  sim_world (SimDev (Ok 31) [Ok samsung_buffer; Ok good_csw]) 0.

(** The data arrive and the status read times out. *)
Definition world_status_timeout : world sim_dev :=
  sim_world (SimDev (Ok 31) [Ok samsung_buffer;
                             Raise (USBTimeoutError "Operation timed out")]) 0.

(** The record [samsung_buffer] decodes to. *)
Definition samsung_identity : identify :=
  {| vid := 0x144d; ssvid := 0x144d;
     serial := "S5GXNF0R123456";
     model := "Samsung SSD 990 PRO 1TB";
     firmware := "4B2QJXD7" |}.

(** The data phase returns no byte at all. *)
Definition world_empty_response : world sim_dev :=
  sim_world (SimDev (Ok 31) [Ok []; Ok good_csw]) 0.

(** ** The host: operating system, USB bus and console

    [main] up to "Sending NVMe Identify command..." talks to the operating
    system and to pyusb.  Their answers are the operations of a [UsbHost]:
    each takes the state of the host and returns its result (or the
    exception it raises) and the next state.  [D] is the type of the pyusb
    device objects. *)

(** A pyusb endpoint object, by the two descriptor fields the program
    reads. *)
Record usb_endpoint : Type := UsbEndpoint {
  bEndpointAddress : Z;
  bmAttributes : Z;
}.

(** What [dev.get_active_configuration()] returns: [bNumInterfaces], and
    the interfaces in the order [for intf in cfg] visits them, each with the
    endpoints in the order [for ep in intf] visits them. *)
Record usb_config : Type := UsbConfig {
  bNumInterfaces : Z;
  cfg_interfaces : list (list usb_endpoint);
}.

Class UsbHost (host D : Type) : Type := {
  os_geteuid : host -> Z;
  usb_core_find : host -> Z -> Z -> result (option D) * host;
  dev_manufacturer : host -> D -> result (option string) * host;
  dev_product : host -> D -> result (option string) * host;
  dev_get_active_configuration : host -> D -> result usb_config * host;
  dev_is_kernel_driver_active : host -> D -> Z -> result bool * host;
  dev_detach_kernel_driver : host -> D -> Z -> result unit * host;
  usb_util_claim_interface : host -> D -> Z -> result unit * host;
  dev_reset : host -> D -> result unit * host;
  time_sleep : host -> Z -> host;
}.

(** [usb.util.endpoint_type(bmAttributes)]: the transfer type bits. *)
Definition endpoint_type (attributes : Z) : Z := Z.land attributes 0x03.

(** [usb.util.endpoint_direction(address)]: the direction bit. *)
Definition endpoint_direction (address : Z) : Z := Z.land address 0x80.

(** [usb.util.ENDPOINT_IN] *)
Definition ENDPOINT_IN : Z := 0x80.

Definition SUPPORTED_DEVICES : list (Z * Z * string) :=
  [ (0x174c, 0x2362, "ASMedia ASM2362"%string);
    (0x174c, 0x2364, "ASMedia ASM2364"%string) ].

(** The exceptions of this part of [main]: those of [exn], and the
    [AttributeError] of a method call on [None]. *)
Inductive host_exn : Type :=
| LibError (e : exn)
| AttributeError (msg : string).

(** [isinstance(e, Exception)], with [str(e)] when it holds: every class
    here but [SystemExit]. *)
Definition as_Exception (e : host_exn) : option string :=
  match e with
  | LibError (USBError msg) | LibError (USBTimeoutError msg)
  | LibError (StructError msg) | LibError (ValueError msg)
  | LibError (IndexError msg) => Some msg
  | LibError (SystemExit _) => None
  | AttributeError msg => Some msg
  end.

Inductive hresult (A : Type) : Type :=
| HOk (a : A)
| HRaise (e : host_exn).
Arguments HOk {A} a.
Arguments HRaise {A} e.

(** What this part of [main] does to the outside, in order. *)
Inductive host_event (D : Type) : Type :=
| HPrint (text : string)
| HFind (idVendor idProduct : Z)
| HManufacturer (d : D)
| HProduct (d : D)
| HGetConfig (d : D)
| HIsActive (d : D) (interface : Z)
| HDetach (d : D) (interface : Z)
| HClaim (d : D) (interface : Z)
| HReset (d : D)
| HSleep (seconds : Z).
Arguments HPrint {D} text.
Arguments HFind {D} idVendor idProduct.
Arguments HManufacturer {D} d.
Arguments HProduct {D} d.
Arguments HGetConfig {D} d.
Arguments HIsActive {D} d interface.
Arguments HDetach {D} d interface.
Arguments HClaim {D} d interface.
Arguments HReset {D} d.
Arguments HSleep {D} seconds.

Record hworld (host D : Type) : Type := HWorld {
  h_host : host;
  h_events : list (host_event D);
}.
Arguments HWorld {host D} _ _.
Arguments h_host {host D} _.
Arguments h_events {host D} _.

Definition HM (host D A : Type) : Type :=
  hworld host D -> hresult A * hworld host D.

Declare Scope host_scope.
Delimit Scope host_scope with host.

(** [f'{x}'] for a value that is a string or [None]. *)
Definition str_of_optional (x : option string) : string :=
  match x with
  | Some s => s
  | None => "None"%string
  end.

(** [a or b] for two values that are objects or [None]. *)
Definition py_or {A} (a : option A) (b : option A) : option A :=
  match a with
  | Some x => Some x
  | None => b
  end.

(** The body of the two loops of [find_bulk_endpoints] for one endpoint:
    the new values of [ep_in] and [ep_out]. *)
Definition note_endpoint (found : option usb_endpoint * option usb_endpoint)
    (ep : usb_endpoint) : option usb_endpoint * option usb_endpoint :=
  let '(ep_in, ep_out) := found in
  if endpoint_type (bmAttributes ep) =? 2 then       (* Bulk *)
    if endpoint_direction (bEndpointAddress ep) =? ENDPOINT_IN
    then (py_or ep_in (Some ep), ep_out)
    else (ep_in, py_or ep_out (Some ep))
  else (ep_in, ep_out).

(** [for intf in cfg: for ep in intf: ...] from [ep_in = ep_out = None]. *)
Definition scan_endpoints (cfg : usb_config)
    : option usb_endpoint * option usb_endpoint :=
  fold_left (fun found intf => fold_left note_endpoint intf found)
            (cfg_interfaces cfg) (None, None).

Section Host.
Context {host D : Type} `{!UsbHost host D}.

Definition hret {A} (a : A) : HM host D A := fun w => (HOk a, w).

Definition hbind {A B} (m : HM host D A) (k : A -> HM host D B) : HM host D B :=
  fun w => match m w with
           | (HOk a, w') => k a w'
           | (HRaise e, w') => (HRaise e, w')
           end.

Definition hraise {A} (e : host_exn) : HM host D A := fun w => (HRaise e, w).

Definition hlog (ev : host_event D) (w : hworld host D) : hworld host D :=
  HWorld (h_host w) (h_events w ++ [ev]).

(** One call of an operation of the host: the call is recorded, the state
    of the host moves on, an exception of the library is raised here. *)
Definition hcall {A} (ev : host_event D) (op : host -> result A * host)
    : HM host D A :=
  fun w => let '(r, h) := op (h_host w) in
           (match r with Ok a => HOk a | Raise e => HRaise (LibError e) end,
            HWorld h (h_events w ++ [ev])).

(** [print(text)] *)
Definition hprint (text : string) : HM host D unit :=
  fun w => (HOk tt, hlog (HPrint text) w).

(** [sys.exit(code)] *)
Definition hexit {A} (code : Z) : HM host D A :=
  hraise (LibError (SystemExit code)).

(** [try: body  except: pass] *)
Definition try_except_pass (body : HM host D unit) : HM host D unit :=
  fun w => match body w with
           | (HOk a, w') => (HOk a, w')
           | (HRaise _, w') => (HOk tt, w')
           end.

(** [try: body  except Exception as e: handler(str(e))] *)
Definition try_except_Exception {A}
    (body : HM host D A) (handler : string -> HM host D A) : HM host D A :=
  fun w => match body w with
           | (HOk a, w') => (HOk a, w')
           | (HRaise e, w') =>
               match as_Exception e with
               | Some msg => handler msg w'
               | None => (HRaise e, w')
               end
           end.

Notation "'let*' x := m 'in' k" := (hbind m (fun x => k))
  (at level 10, x name, m at level 200, k at level 200) : host_scope.
Notation "m ;; k" := (hbind m (fun _ => k))
  (at level 100, k at level 200, right associativity) : host_scope.

Fixpoint hfor_each {A} (l : list A) (body : A -> HM host D unit) : HM host D unit :=
  match l with
  | [] => hret tt
  | x :: l' => (body x ;; hfor_each l' body)%host
  end.

(** *** find_device *)

(** The loop of [find_device] over the entries still to be tried. *)
Fixpoint find_device_in (supported : list (Z * Z * string))
    : HM host D (option D * option string) :=
  match supported with
  | [] => hret (None, None)
  | (vid, pid, name) :: rest =>
      (let* dev := hcall (HFind vid pid) (fun h => usb_core_find h vid pid) in
       match dev with
       | Some d => hret (Some d, Some name)
       | None => find_device_in rest
       end)%host
  end.

Definition find_device : HM host D (option D * option string) :=
  find_device_in SUPPORTED_DEVICES.

(** *** find_bulk_endpoints *)

Definition find_bulk_endpoints (d : D)
    : HM host D (option usb_endpoint * option usb_endpoint) :=
  (let* cfg := hcall (HGetConfig d) (fun h => dev_get_active_configuration h d) in
   hret (scan_endpoints cfg))%host.

(** *** main, up to "Sending NVMe Identify command..." *)

(** [if dev.is_kernel_driver_active(i): dev.detach_kernel_driver(i)] *)
Definition detach_if_active (d : D) (i : Z) : HM host D unit :=
  (let* active := hcall (HIsActive d i)
                        (fun h => dev_is_kernel_driver_active h d i) in
   if active
   then hcall (HDetach d i) (fun h => dev_detach_kernel_driver h d i)
   else hret tt)%host.

(** The statements of the [try] block after "Resetting device...": the
    endpoints of the device found again after the reset. *)
Definition reset_and_rediscover (d : D)
    : HM host D (option usb_endpoint * option usb_endpoint) :=
  (hcall (HReset d) (fun h => dev_reset h d) ;;
   hcall (HSleep 1) (fun h => (Ok tt, time_sleep h 1)) ;;
   let* found := find_device in
   match fst found with
   | None =>
       hraise (AttributeError
                 "'NoneType' object has no attribute 'get_active_configuration'")
   | Some d' =>
       let* cfg := hcall (HGetConfig d')
                         (fun h => dev_get_active_configuration h d') in
       hfor_each (py_range 0 (bNumInterfaces cfg))
         (fun i => try_except_pass (detach_if_active d' i)) ;;
       hcall (HClaim d' 0) (fun h => usb_util_claim_interface h d' 0) ;;
       find_bulk_endpoints d'
   end)%host.

(** [main] from its first statement to the one before
    [print("\nSending NVMe Identify command...")].  The result is the pair
    ([ep_in], [ep_out]) that [send_nvme_identify] is then called with. *)
Definition main_before_send
    : HM host D (option usb_endpoint * option usb_endpoint) :=
  (hprint (str_repeat "=" 65) ;;
   hprint "  Identify NVMe SSD Inside USB Enclosure (macOS)" ;;
   hprint "  https://github.com/UnknownInconnuSpace/asm2362-identify" ;;
   hprint (str_repeat "=" 65) ;;
   let* euid := (fun w => (HOk (os_geteuid (h_host w)), w)) in
   if negb (euid =? 0) then
     hprint (nl +:+ "ERROR: Must run as root") ;;
     hprint "  sudo python3 asm2362_identify.py" ;;
     hexit 1
   else
     hprint (nl +:+ "Searching for ASMedia USB-NVMe bridge...") ;;
     let* found := find_device in
     match fst found with
     | None =>
         hprint (nl +:+ "ERROR: No supported device found!") ;;
         hprint (nl +:+ "Supported: ASMedia ASM2362, ASM2364") ;;
         hprint (nl +:+ "Check if your enclosure uses ASMedia:") ;;
         hprint "  system_profiler SPUSBDataType | grep -i 174c" ;;
         hexit 1
     | Some d =>
         hprint ("  Found: " +:+ str_of_optional (snd found)) ;;
         try_except_pass
           (let* m := hcall (HManufacturer d) (fun h => dev_manufacturer h d) in
            hprint ("  Manufacturer: " +:+ str_of_optional m) ;;
            let* p := hcall (HProduct d) (fun h => dev_product h d) in
            hprint ("  Product: " +:+ str_of_optional p)) ;;
         (* Detach kernel driver *)
         hprint (nl +:+ "Detaching macOS kernel driver...") ;;
         try_except_Exception
           (let* cfg := hcall (HGetConfig d)
                              (fun h => dev_get_active_configuration h d) in
            hfor_each (py_range 0 (bNumInterfaces cfg)) (detach_if_active d) ;;
            hprint "  Done")
           (fun msg => hprint ("  Note: " +:+ msg)) ;;
         try_except_pass
           (hcall (HClaim d 0) (fun h => usb_util_claim_interface h d 0)) ;;
         let* eps := find_bulk_endpoints d in
         match eps with
         | (Some ep_in, Some ep_out) =>
             (* Reset to clear stale state *)
             hprint "Resetting device..." ;;
             try_except_Exception
               (reset_and_rediscover d)
               (fun msg => hprint ("  Note: " +:+ msg) ;; hret eps)
         | _ =>
             hprint (nl +:+ "ERROR: Could not find USB endpoints") ;;
             hexit 1
         end
     end)%host.

(** The calls to the USB library among some events (console lines and
    sleeps left out). *)
Definition usb_calls (evs : list (host_event D)) : list (host_event D) :=
  List.filter (fun ev => match ev with
                         | HPrint _ | HSleep _ => false
                         | _ => true
                         end) evs.

Definition hprints_of (evs : list (host_event D)) : list string :=
  omap (fun ev => match ev with HPrint s => Some s | _ => None end) evs.

Definition hnew_events (w w' : hworld host D) : list (host_event D) :=
  drop (length (h_events w)) (h_events w').

End Host.

(** A bulk endpoint of direction IN, and one of the other direction, as
    the two tests of [find_bulk_endpoints] tell them apart. *)
Definition is_bulk_in (ep : usb_endpoint) : bool :=
  (endpoint_type (bmAttributes ep) =? 2)
  && (endpoint_direction (bEndpointAddress ep) =? ENDPOINT_IN).

Definition is_bulk_out (ep : usb_endpoint) : bool :=
  (endpoint_type (bmAttributes ep) =? 2)
  && negb (endpoint_direction (bEndpointAddress ep) =? ENDPOINT_IN).

(** A computation only adds events to those already recorded. *)
Definition grows {host D A : Type} (m : HM host D A) : Prop :=
  forall w, exists evs, h_events (m w).2 = h_events w ++ evs.

(** ** A scripted host, to run [main_before_send] on concrete answers

    Devices are numbered.  [usb.core.find] answers from the list of attached
    devices (vendor, product, number); a reset replaces that list by
    [sim_attached_after_reset] and the configuration by
    [sim_config_after_reset].  Every other operation gives the answer
    recorded for it, whatever the device. *)
Record sim_host : Type := SimHost {
  sim_euid : Z;
  sim_attached : list (Z * Z * Z);
  sim_attached_after_reset : list (Z * Z * Z);
  sim_strings : result (option string);
  sim_config : result usb_config;
  sim_config_after_reset : result usb_config;
  sim_driver_active : result bool;
  sim_detach : result unit;
  sim_claim : result unit;
  sim_reset : result unit;
}.

Definition sim_find (attached : list (Z * Z * Z)) (vid pid : Z) : option Z :=
  match List.find (fun '(v, p, _) => (v =? vid) && (p =? pid)) attached with
  | Some (_, _, n) => Some n
  | None => None
  end.

#[export] Instance sim_usb_host : UsbHost sim_host Z := {|
  os_geteuid h := sim_euid h;
  usb_core_find h vid pid := (Ok (sim_find (sim_attached h) vid pid), h);
  dev_manufacturer h _ := (sim_strings h, h);
  dev_product h _ := (sim_strings h, h);
  dev_get_active_configuration h _ := (sim_config h, h);
  dev_is_kernel_driver_active h _ _ := (sim_driver_active h, h);
  dev_detach_kernel_driver h _ _ := (sim_detach h, h);
  usb_util_claim_interface h _ _ := (sim_claim h, h);
  dev_reset h _ :=
    (sim_reset h,
     SimHost (sim_euid h) (sim_attached_after_reset h) (sim_attached_after_reset h)
             (sim_strings h) (sim_config_after_reset h) (sim_config_after_reset h)
             (sim_driver_active h) (sim_detach h) (sim_claim h) (sim_reset h));
  time_sleep h _ := h;
|}.

(** The configuration of an ASM2362 bridge: one interface with a bulk-IN
    endpoint 0x81 and a bulk-OUT endpoint 0x02. *)
Definition bridge_config : usb_config :=
  UsbConfig 1 [[UsbEndpoint 0x81 0x02; UsbEndpoint 0x02 0x02]].

(** Root, one ASM2364 bridge attached, every operation succeeds. *)
Definition host_with_bridge : sim_host :=
  SimHost 0 [(0x174c, 0x2364, 7)] [(0x174c, 0x2364, 8)]
          (Ok (Some "ASMedia"%string)) (Ok bridge_config) (Ok bridge_config)
          (Ok true) (Ok tt) (Ok tt) (Ok tt).

(** Not root. *)
Definition host_not_root : sim_host :=
  SimHost 501 [(0x174c, 0x2364, 7)] [(0x174c, 0x2364, 8)]
          (Ok (Some "ASMedia"%string)) (Ok bridge_config) (Ok bridge_config)
          (Ok true) (Ok tt) (Ok tt) (Ok tt).

(** Root, only a device of another vendor attached. *)
Definition host_without_bridge : sim_host :=
  SimHost 0 [(0x05ac, 0x8600, 3)] [(0x05ac, 0x8600, 3)]
          (Ok (Some "Apple"%string)) (Ok bridge_config) (Ok bridge_config)
          (Ok false) (Ok tt) (Ok tt) (Ok tt).



Definition host_world (h : sim_host) : hworld sim_host Z := HWorld h [].

(** * Properties *)

(** ** Lemmas on bytes and packing *)

Lemma byte_val_range b : 0 <= byte_val b < 256.
Proof.
  unfold byte_val. pose proof (Byte.to_N_bounded b). lia.
Qed.

Lemma byte_val_of_Z z : byte_val (byte_of_Z z) = z mod 256.
Proof.
  unfold byte_val, byte_of_Z.
  assert (Hr : 0 <= z mod 256 < 256) by (apply Z.mod_pos_bound; lia).
  destruct (Byte.of_N (Z.to_N (z mod 256))) as [b|] eqn:E.
  - apply Byte.to_of_N in E. simpl. rewrite E. lia.
  - apply Byte.of_N_None_iff in E. lia.
Qed.

Lemma byte_val_inj b1 b2 : byte_val b1 = byte_val b2 -> b1 = b2.
Proof.
  unfold byte_val. intros H.
  assert (E : Byte.to_N b1 = Byte.to_N b2) by lia.
  pose proof (Byte.of_to_N b1) as H1. pose proof (Byte.of_to_N b2) as H2.
  rewrite E in H1. congruence.
Qed.

Lemma length_le_bytes n v : length (le_bytes n v) = n.
Proof. revert v. induction n as [|n IH]; intros v; simpl; [done | by rewrite IH]. Qed.

Lemma pack_uint_ok n v :
  0 <= v < 2 ^ (8 * Z.of_nat n) -> pack_uint n v = Ok (le_bytes n v).
Proof.
  intros [H0 H1]. unfold pack_uint.
  apply Z.leb_le in H0. apply Z.ltb_lt in H1. by rewrite H0, H1.
Qed.

Lemma tag_of_ms_range now_ms : 0 <= tag_of_ms now_ms < 2 ^ 32.
Proof.
  unfold tag_of_ms. change 0xFFFFFFFF with (Z.ones 32).
  rewrite Z.land_ones by lia. apply Z.mod_pos_bound. lia.
Qed.

Lemma struct_pack_IIIBBB_ok a b c d e f :
  0 <= a < 2 ^ 32 -> 0 <= b < 2 ^ 32 -> 0 <= c < 2 ^ 32 ->
  0 <= d < 256 -> 0 <= e < 256 -> 0 <= f < 256 ->
  struct_pack_IIIBBB a b c d e f =
  Ok (le_bytes 4 a ++ le_bytes 4 b ++ le_bytes 4 c
      ++ le_bytes 1 d ++ le_bytes 1 e ++ le_bytes 1 f).
Proof.
  intros Ha Hb Hc Hd He Hf. unfold struct_pack_IIIBBB.
  rewrite !pack_uint_ok by (simpl; lia). reflexivity.
Qed.

Lemma build_cbw_ok tag cdb :
  0 <= tag < 2 ^ 32 -> (length cdb <= 16)%nat ->
  build_cbw tag cdb =
  Ok ((le_bytes 4 CBW_SIGNATURE ++ le_bytes 4 tag ++ le_bytes 4 4096
       ++ le_bytes 1 0x80 ++ le_bytes 1 0 ++ le_bytes 1 (len cdb))
      ++ (cdb ++ replicate (16 - length cdb) x00)).
Proof.
  intros Htag Hlen. unfold build_cbw, len.
  rewrite struct_pack_IIIBBB_ok by (unfold CBW_SIGNATURE; lia).
  unfold py_bytes. simpl rbind.
  destruct (16 - Z.of_nat (length cdb) <? 0) eqn:E; [apply Z.ltb_lt in E; lia|].
  simpl rbind.
  replace (Z.to_nat (16 - Z.of_nat (length cdb))) with (16 - length cdb)%nat by lia.
  reflexivity.
Qed.

(** ** The Command Block Wrapper *)

(** C1.  For every tag that fits 32 bits and every CDB of at most 16 bytes,
    the two statements that build the wrapper (with the fixed length 4096
    and the device-to-host flag 0x80) succeed and give exactly 31 bytes; the
    first four are 55 53 42 43, the little-endian encoding of 0x43425355,
    and the 16-byte cdb field at offset 15 is the CDB followed by zero
    bytes. *)
Theorem build_cbw_layout (tag : Z) (cdb : list byte) :
  0 <= tag < 2 ^ 32 ->
  (length cdb <= 16)%nat ->
  exists cbw,
    build_cbw tag cdb = Ok cbw
    /\ length cbw = 31%nat
    /\ take 4 cbw = [x55; x53; x42; x43]
    /\ le_value (take 4 cbw) = CBW_SIGNATURE
    /\ slice 15 31 cbw = cdb ++ replicate (16 - length cdb) x00
    /\ (forall i, (length cdb <= i < 16)%nat -> cbw !! (15 + i)%nat = Some x00).
Proof.
  intros Htag Hlen. eexists. split; [by apply build_cbw_ok|].
  set (hdr := le_bytes 4 CBW_SIGNATURE ++ _).
  assert (Hhdr : length hdr = 15%nat).
  { unfold hdr. rewrite !length_app, !length_le_bytes. reflexivity. }
  assert (Hfield : length (cdb ++ replicate (16 - length cdb) x00) = 16%nat).
  { rewrite length_app, length_replicate. lia. }
  assert (Hsig : take 4 (hdr ++ cdb ++ replicate (16 - length cdb) x00)
                 = [x55; x53; x42; x43]).
  { unfold hdr. rewrite <- ?app_assoc.
    rewrite take_app_length' by (symmetry; apply length_le_bytes). reflexivity. }
  split; [rewrite length_app; lia|].
  split; [exact Hsig|].
  split; [rewrite Hsig; reflexivity|].
  split.
  - unfold slice. rewrite drop_app_length' by exact Hhdr.
    apply take_ge. lia.
  - intros i Hi. rewrite lookup_app_r by lia.
    replace (15 + i - length hdr)%nat with i by lia.
    rewrite lookup_app_r by lia.
    apply lookup_replicate_2. lia.
Qed.

Lemma build_cbw_layout_witness :
  exists cbw, build_cbw 0x01020304 [xe6; x06; x00; x01] = Ok cbw
              /\ length cbw = 31%nat
              /\ take 4 cbw = [x55; x53; x42; x43]
              /\ le_value (take 4 cbw) = CBW_SIGNATURE
              /\ slice 15 31 cbw = [xe6; x06; x00; x01] ++ replicate 12 x00
              /\ (forall i, (4 <= i < 16)%nat -> cbw !! (15 + i)%nat = Some x00).
Proof.
  apply (build_cbw_layout 0x01020304 [xe6; x06; x00; x01]); simpl; lia.
Defined.

Lemma le_value_le_bytes n v :
  0 <= v < 2 ^ (8 * Z.of_nat n) -> le_value (le_bytes n v) = v.
Proof.
  revert v. induction n as [|n IH]; intros v Hv.
  - simpl in *. lia.
  - cbn [le_bytes le_value]. rewrite byte_val_of_Z, Z.shiftr_div_pow2 by lia.
    rewrite IH.
    + change (2 ^ 8) with 256. pose proof (Z.div_mod v 256). lia.
    + replace (8 * Z.of_nat (S n)) with (8 + 8 * Z.of_nat n) in Hv by lia.
      rewrite Z.pow_add_r in Hv by lia. change (2 ^ 8) with 256 in *.
      split; [apply Z.div_pos; lia|].
      apply Z.div_lt_upper_bound; lia.
Qed.

Lemma build_cbw_identify tag :
  0 <= tag < 2 ^ 32 -> build_cbw tag identify_cdb = Ok (cbw_image tag).
Proof.
  intros Htag. rewrite build_cbw_ok by (simpl; lia). reflexivity.
Qed.

(** ** The transfers of send_nvme_identify *)

Section SessionFacts.
Context {dev : Type} `{!BulkEndpoints dev}.
Implicit Types w : world dev.

Lemma new_events_app w d now evs :
  new_events w (World d now (w_trace w ++ evs)) = evs.
Proof. unfold new_events. simpl. apply drop_app_length. Qed.

(** The wrapper is built before any transfer, from the clock alone. *)
Lemma send_builds_cbw w :
  build_cbw (tag_of_ms (w_now_ms w)) identify_cdb
  = Ok (cbw_image (tag_of_ms (w_now_ms w))).
Proof. apply build_cbw_identify, tag_of_ms_range. Qed.

(** The write fails: nothing else is transferred. *)
Lemma send_write_raises w e d1 :
  ep_out_write (w_dev w) (cbw_image (tag_of_ms (w_now_ms w))) 5000 = (Raise e, d1) ->
  send_nvme_identify w =
  let tr := w_trace w ++ [EvWrite (cbw_image (tag_of_ms (w_now_ms w))) 5000] in
  match as_USBError e with
  | Some msg =>
      (Ok None, World d1 (w_now_ms w) (tr ++ [EvPrint ("USB Error: " +:+ msg)]))
  | None => (Raise e, World d1 (w_now_ms w) tr)
  end.
Proof.
  intros Hw. unfold send_nvme_identify, bind, time_ms, lift.
  rewrite send_builds_cbw.
  unfold try_except_USBError, write, print, ret, log, set_dev. rewrite Hw. cbn.
  destruct (as_USBError e); reflexivity.
Qed.

(** The write and the data read succeed: the outcome is decided by the
    status read alone. *)
Lemma send_after_data w n d1 data d2 r3 d3 :
  ep_out_write (w_dev w) (cbw_image (tag_of_ms (w_now_ms w))) 5000 = (Ok n, d1) ->
  ep_in_read d1 4096 5000 = (Ok data, d2) ->
  ep_in_read d2 13 5000 = (r3, d3) ->
  send_nvme_identify w =
  let tr := w_trace w ++ [EvWrite (cbw_image (tag_of_ms (w_now_ms w))) 5000;
                          EvRead 4096 5000; EvRead 13 5000] in
  match r3 with
  | Ok _ => (Ok (Some data), World d3 (w_now_ms w) tr)
  | Raise e =>
      match as_USBError e with
      | Some msg =>
          (Ok None, World d3 (w_now_ms w) (tr ++ [EvPrint ("USB Error: " +:+ msg)]))
      | None => (Raise e, World d3 (w_now_ms w) tr)
      end
  end.
Proof.
  intros Hw Hr1 Hr2. unfold send_nvme_identify, bind, time_ms, lift.
  rewrite send_builds_cbw.
  unfold try_except_USBError, write, read, ret, print, log, set_dev.
  rewrite Hw. cbn. rewrite Hr1. cbn. rewrite Hr2. cbn.
  rewrite <- ?app_assoc. cbn.
  destruct r3 as [csw|e]; [reflexivity|].
  destruct (as_USBError e); cbn; rewrite <- ?app_assoc; reflexivity.
Qed.

(** Whatever the device answers, the first thing [send_nvme_identify] does
    is to write the wrapper with a timeout of 5000 ms. *)
Lemma send_first_event w :
  exists rest,
    w_trace (send_nvme_identify w).2
    = w_trace w ++ EvWrite (cbw_image (tag_of_ms (w_now_ms w))) 5000 :: rest.
Proof.
  unfold send_nvme_identify, bind, time_ms, lift.
  rewrite send_builds_cbw.
  unfold try_except_USBError, write, read, ret, print, log, set_dev. cbn.
  destruct (ep_out_write _ _ _) as [[n|e] d1]; cbn.
  - destruct (ep_in_read d1 _ _) as [[data|e] d2]; cbn.
    + destruct (ep_in_read d2 _ _) as [[csw|e] d3]; cbn.
      * rewrite <- ?app_assoc. eauto.
      * destruct (as_USBError e); cbn; rewrite <- ?app_assoc; eauto.
    + destruct (as_USBError e); cbn; rewrite <- ?app_assoc; eauto.
  - destruct (as_USBError e); cbn; rewrite <- ?app_assoc; eauto.
Qed.

End SessionFacts.

(** ** The wrapper on the wire *)

(** C2, as the code has it.  Whatever the device does, the first transfer
    of [send_nvme_identify] writes a 31-byte wrapper whose fields are: the
    signature 0x43425355, the tag, the data transfer length 4096, the flags
    0x80, the lun 0, the cdb length 16 (the length of the zero-padded CDB,
    not 4), and a cdb field that starts with E6 06 00 01 and is zero from
    there on. *)
Theorem identify_cbw_on_wire {dev : Type} `{!BulkEndpoints dev} (w : world dev) :
  exists cbw rest,
    w_trace (send_nvme_identify w).2 = w_trace w ++ EvWrite cbw 5000 :: rest
    /\ length cbw = 31%nat
    /\ le_value (slice 0 4 cbw) = 0x43425355
    /\ le_value (slice 4 8 cbw) = tag_of_ms (w_now_ms w)
    /\ le_value (slice 8 12 cbw) = 4096
    /\ byte_val <$> cbw !! 12%nat = Some 0x80
    /\ byte_val <$> cbw !! 13%nat = Some 0
    /\ byte_val <$> cbw !! 14%nat = Some 16
    /\ slice 15 19 cbw = [xe6; x06; x00; x01]
    /\ slice 19 31 cbw = replicate 12 x00.
Proof.
  destruct (send_first_event w) as [rest Hrest].
  exists (cbw_image (tag_of_ms (w_now_ms w))), rest.
  split; [exact Hrest|].
  repeat split; try reflexivity.
  change (slice 4 8 (cbw_image (tag_of_ms (w_now_ms w))))
    with (le_bytes 4 (tag_of_ms (w_now_ms w))).
  apply le_value_le_bytes, tag_of_ms_range.
Qed.

(** C2, counterexample.  On a device that accepts the write, with the clock
    at 0, the byte at offset 14 of the wrapper written (its cdb length
    field) is 16 and not 4. *)
Lemma cdb_length_byte_is_not_4 :
  exists cbw rest,
    w_trace (send_nvme_identify world_zero_response).2
    = EvWrite cbw 5000 :: rest
    /\ byte_val <$> cbw !! 14%nat = Some 16
    /\ byte_val <$> cbw !! 14%nat <> Some 4.
Proof.
  eexists _, _. split; [vm_compute; reflexivity|].
  split; [reflexivity | discriminate].
Qed.

(** ** The status phase *)

Section StatusPhase.
Context {dev : Type} `{!BulkEndpoints dev}.

(** C5, as the code has it.  After the wrapper is written and the data are
    read, [send_nvme_identify] asks for 13 bytes and looks at none of them:
    when that read returns, whatever bytes it returns, the result is the
    data buffer; the call fails only when the read itself raises (a
    [USBError] gives [None] after the message "USB Error: ...", any other
    exception propagates). *)
Theorem status_bytes_ignored (w : world dev) n d1 data d2 r3 d3 :
  ep_out_write (w_dev w) (cbw_image (tag_of_ms (w_now_ms w))) 5000 = (Ok n, d1) ->
  ep_in_read d1 4096 5000 = (Ok data, d2) ->
  ep_in_read d2 13 5000 = (r3, d3) ->
  exists w',
    (send_nvme_identify w).2 = w'
    /\ reads_of (new_events w w') = [4096; 13]
    /\ (send_nvme_identify w).1 =
       match r3 with
       | Ok _ => Ok (Some data)
       | Raise e => if as_USBError e is Some _ then Ok None else Raise e
       end.
Proof.
  intros Hw Hr1 Hr2. eexists. split; [reflexivity|].
  rewrite (send_after_data w n d1 data d2 r3 d3 Hw Hr1 Hr2). cbn zeta.
  destruct r3 as [csw|e]; [|destruct (as_USBError e)];
    cbn [fst snd]; rewrite <- ?app_assoc, new_events_app; split; reflexivity.
Qed.

End StatusPhase.

Lemma status_bytes_ignored_witness :
  exists w',
    (send_nvme_identify world_short_csw).2 = w'
    /\ reads_of (new_events world_short_csw w') = [4096; 13]
    /\ (send_nvme_identify world_short_csw).1 = Ok (Some samsung_buffer).
Proof.
  exact (status_bytes_ignored
           world_short_csw
           31 (SimDev (Ok 31) [Ok samsung_buffer; Ok [xde; xad]])
           samsung_buffer (SimDev (Ok 31) [Ok [xde; xad]])
           (Ok [xde; xad]) (SimDev (Ok 31) [])
           eq_refl eq_refl eq_refl).
Defined.

(** C5, counterexample.  The status read returns two bytes (not 13, and no
    signature), then 13 bytes with a wrong signature: in both runs
    [send_nvme_identify] returns the data and the session ends normally. *)
Lemma malformed_csw_accepted :
  (send_nvme_identify world_short_csw).1 = Ok (Some samsung_buffer)
  /\ (main_from_send world_short_csw).1 = Ok tt
  /\ (send_nvme_identify world_bad_signature).1 = Ok (Some samsung_buffer)
  /\ (main_from_send world_bad_signature).1 = Ok tt.
Proof. vm_compute. repeat split. Qed.

(** ** A failed write *)

Section WriteFailure.
Context {dev : Type} `{!BulkEndpoints dev}.

Lemma main_from_send_unfold (w : world dev) :
  main_from_send w =
  match send_nvme_identify
          (log (EvPrint (nl +:+ "Sending NVMe Identify command...")) w) with
  | (Ok data, w1) => main_after_send data w1
  | (Raise e, w1) => (Raise e, w1)
  end.
Proof. reflexivity. Qed.

(** C6.  When the write of the wrapper raises, the session ends in failure
    without another transfer: the only bulk-OUT write is that of the
    wrapper (no retry) and no bulk-IN read is issued.  A [USBError] (a
    time-out is one) is reported as "USB Error: ..." and "ERROR: No response
    from drive" and ends the run with [sys.exit(1)]; an exception of another
    class leaves [main] as it is. *)
Theorem write_failure_ends_session (w : world dev) e d1 :
  ep_out_write (w_dev w) (cbw_image (tag_of_ms (w_now_ms w))) 5000 = (Raise e, d1) ->
  exists w',
    main_from_send w
    = (Raise (if as_USBError e is Some _ then SystemExit 1 else e), w')
    /\ reads_of (new_events w w') = []
    /\ writes_of (new_events w w') = [cbw_image (tag_of_ms (w_now_ms w))]
    /\ prints_of (new_events w w')
       = (nl +:+ "Sending NVMe Identify command...")
           :: match as_USBError e with
              | Some msg => ["USB Error: " +:+ msg;
                             nl +:+ "ERROR: No response from drive"]
              | None => []
              end.
Proof.
  intros Hw. rewrite main_from_send_unfold.
  rewrite (send_write_raises (log _ w) e d1) by exact Hw.
  cbn zeta. destruct (as_USBError e) as [msg|].
  - eexists. split; [reflexivity|].
    unfold log. cbn [w_dev w_now_ms w_trace].
    rewrite <- !app_assoc, new_events_app. repeat split.
  - eexists. split; [reflexivity|].
    unfold log. cbn [w_dev w_now_ms w_trace].
    rewrite <- !app_assoc, new_events_app. repeat split.
Qed.

End WriteFailure.

Lemma write_failure_ends_session_witness :
  exists w',
    main_from_send world_write_timeout = (Raise (SystemExit 1), w')
    /\ reads_of (new_events world_write_timeout w') = []
    /\ writes_of (new_events world_write_timeout w')
       = [cbw_image (tag_of_ms 1700000000000)]
    /\ prints_of (new_events world_write_timeout w')
       = [nl +:+ "Sending NVMe Identify command...";
          "USB Error: " +:+ "Operation timed out";
          nl +:+ "ERROR: No response from drive"].
Proof.
  exact (write_failure_ends_session
           world_write_timeout
           (USBTimeoutError "Operation timed out")
           (SimDev (Raise (USBTimeoutError "Operation timed out"))
                   [Ok samsung_buffer; Ok good_csw])
           eq_refl).
Defined.

(** ** parse_identify: the guard and the two identifiers *)

Lemma land_low_shiftl a b : 0 <= a < 256 -> Z.land a (Z.shiftl b 8) = 0.
Proof.
  intros Ha. apply Z.bits_inj'. intros n Hn.
  rewrite Z.land_spec, Z.bits_0.
  destruct (Z.lt_ge_cases n 8) as [Hlt|Hge].
  - rewrite Z.shiftl_spec_low by lia. apply andb_false_r.
  - destruct (Z.eq_dec a 0) as [->|Hnz]; [by rewrite Z.bits_0|].
    rewrite (Z.bits_above_log2 a n); [reflexivity|lia|].
    assert (Z.log2 a < 8) by (apply Z.log2_lt_pow2; lia). lia.
Qed.

Lemma le16_value b0 b1 :
  Z.lor (byte_val b0) (Z.shiftl (byte_val b1) 8) = byte_val b0 + 256 * byte_val b1.
Proof.
  pose proof (byte_val_range b0) as H0.
  pose proof (Z.add_lor_land (byte_val b0) (Z.shiftl (byte_val b1) 8)) as H.
  rewrite land_low_shiftl in H by exact H0.
  assert (Hs : Z.shiftl (byte_val b1) 8 = 256 * byte_val b1)
    by (rewrite Z.shiftl_mul_pow2 by lia; lia).
  lia.
Qed.

Lemma parse_identify_short data :
  (length data < 72)%nat -> parse_identify data = Ok None.
Proof.
  intros Hlen. unfold parse_identify, len.
  destruct (Z.of_nat (length data) <? 72) eqn:E.
  - by rewrite orb_true_r.
  - apply Z.ltb_ge in E. lia.
Qed.

Lemma parse_identify_long data :
  (72 <= length data)%nat ->
  exists b0 b1 b2 b3,
    data !! 0%nat = Some b0 /\ data !! 1%nat = Some b1
    /\ data !! 2%nat = Some b2 /\ data !! 3%nat = Some b3
    /\ parse_identify data =
       Ok (Some {| vid := Z.lor (byte_val b0) (Z.shiftl (byte_val b1) 8);
                   ssvid := Z.lor (byte_val b2) (Z.shiftl (byte_val b3) 8);
                   serial := strip (decode_ascii_ignore (slice 4 24 data));
                   model := strip (decode_ascii_ignore (slice 24 64 data));
                   firmware := strip (decode_ascii_ignore (slice 64 72 data)) |}).
Proof.
  intros Hlen.
  destruct data as [|b0 [|b1 [|b2 [|b3 rest]]]]; simpl in Hlen; try lia.
  exists b0, b1, b2, b3. repeat split.
  unfold parse_identify, len.
  destruct (Z.of_nat _ <? 72) eqn:E.
  - apply Z.ltb_lt in E. simpl length in E. lia.
  - reflexivity.
Qed.

(** C3.  [parse_identify] returns [None] for every buffer of fewer than 72
    bytes; for every buffer of 72 bytes or more it returns a record whose
    [vid] and [ssvid] are the unsigned 16-bit little-endian integers at
    offsets 0 and 2 (low byte first), whatever the other bytes are. *)
Theorem parse_identify_guard_and_ids (data : list byte) :
  ((length data < 72)%nat -> parse_identify data = Ok None)
  /\ ((72 <= length data)%nat ->
      exists r b0 b1 b2 b3,
        parse_identify data = Ok (Some r)
        /\ data !! 0%nat = Some b0 /\ data !! 1%nat = Some b1
        /\ data !! 2%nat = Some b2 /\ data !! 3%nat = Some b3
        /\ vid r = byte_val b0 + 256 * byte_val b1
        /\ ssvid r = byte_val b2 + 256 * byte_val b3
        /\ 0 <= vid r < 65536 /\ 0 <= ssvid r < 65536).
Proof.
  split; [apply parse_identify_short|].
  intros Hlen.
  destruct (parse_identify_long data Hlen) as (b0 & b1 & b2 & b3 & H0 & H1 & H2 & H3 & Hp).
  eexists _, b0, b1, b2, b3. split; [exact Hp|].
  cbn [vid ssvid]. rewrite !le16_value.
  pose proof (byte_val_range b0). pose proof (byte_val_range b1).
  pose proof (byte_val_range b2). pose proof (byte_val_range b3).
  repeat split; try assumption; lia.
Qed.

Lemma parse_identify_guard_and_ids_witness :
  parse_identify (replicate 71 x20) = Ok None
  /\ exists r b0 b1 b2 b3,
       parse_identify samsung_buffer = Ok (Some r)
       /\ samsung_buffer !! 0%nat = Some b0 /\ samsung_buffer !! 1%nat = Some b1
       /\ samsung_buffer !! 2%nat = Some b2 /\ samsung_buffer !! 3%nat = Some b3
       /\ vid r = byte_val b0 + 256 * byte_val b1
       /\ ssvid r = byte_val b2 + 256 * byte_val b3
       /\ 0 <= vid r < 65536 /\ 0 <= ssvid r < 65536.
Proof.
  split.
  - apply (proj1 (parse_identify_guard_and_ids (replicate 71 x20))).
    apply Nat.ltb_lt. vm_compute. reflexivity.
  - apply (proj2 (parse_identify_guard_and_ids samsung_buffer)).
    apply Nat.leb_le. vm_compute. reflexivity.
Defined.

(** ** The text fields *)

Lemma decode_ascii_ignore_chars bs :
  list_ascii_of_string (decode_ascii_ignore bs)
  = List.map ascii_of_byte (List.filter (fun b => byte_val b <? 128) bs).
Proof.
  induction bs as [|b bs IH]; [reflexivity|].
  cbn [decode_ascii_ignore List.filter].
  destruct (byte_val b <? 128); cbn; by rewrite IH.
Qed.

(** [lstrip] removes a prefix of white space and stops at the first
    character that is not. *)
Lemma lstrip_split s :
  exists pre,
    list_ascii_of_string s = pre ++ list_ascii_of_string (lstrip s)
    /\ Forall (fun c => py_isspace c = true) pre
    /\ (forall c, head (list_ascii_of_string (lstrip s)) = Some c ->
                  py_isspace c = false).
Proof.
  induction s as [|c s IH].
  - exists []. repeat split; [constructor | intros c H; discriminate H].
  - cbn [lstrip]. destruct (py_isspace c) eqn:Ec.
    + destruct IH as (pre & Hs & Hpre & Hhead).
      exists (c :: pre). cbn [list_ascii_of_string]. rewrite Hs.
      repeat split; [by constructor | exact Hhead].
    + exists []. repeat split; [constructor|].
      intros c' H. cbn in H. congruence.
Qed.

(** [rstrip] removes a suffix of white space and nothing more. *)
Lemma rstrip_split s :
  exists suf,
    list_ascii_of_string s = list_ascii_of_string (rstrip s) ++ suf
    /\ Forall (fun c => py_isspace c = true) suf
    /\ (forall c, last (list_ascii_of_string (rstrip s)) = Some c ->
                  py_isspace c = false).
Proof.
  induction s as [|c s IH].
  - exists []. repeat split; [constructor | intros c H; discriminate H].
  - destruct IH as (suf & Hs & Hsuf & Hlast).
    cbn [rstrip]. destruct (rstrip s) as [|c' r] eqn:Er.
    + destruct (py_isspace c) eqn:Ec.
      * exists (c :: suf). cbn [list_ascii_of_string] in *. rewrite Hs.
        repeat split; [by constructor | intros c0 H; discriminate H].
      * exists suf. cbn [list_ascii_of_string] in *. rewrite Hs.
        repeat split; [exact Hsuf|]. intros c0 H. cbn in H. congruence.
    + exists suf. cbn [list_ascii_of_string] in *. rewrite Hs.
      repeat split; [exact Hsuf|]. intros c0 H. apply Hlast. exact H.
Qed.

Lemma rstrip_head s c :
  head (list_ascii_of_string (rstrip s)) = Some c ->
  head (list_ascii_of_string s) = Some c.
Proof.
  destruct (rstrip_split s) as (suf & Hs & _ & _). rewrite Hs.
  destruct (list_ascii_of_string (rstrip s)); [discriminate|]. by intros H.
Qed.

Lemma strip_trimmed raw : trimmed_text raw (strip (decode_ascii_ignore raw)).
Proof.
  unfold trimmed_text, strip. rewrite <- decode_ascii_ignore_chars.
  destruct (lstrip_split (decode_ascii_ignore raw)) as (pre & Hl & Hpre & Hhead).
  destruct (rstrip_split (lstrip (decode_ascii_ignore raw))) as (suf & Hr & Hsuf & Hlast).
  exists pre, suf. rewrite Hl at 1. rewrite Hr at 1.
  repeat split; try assumption.
  intros c Hc. apply Hhead, rstrip_head, Hc.
Qed.

(** [trimmed_text] names one text: the kept characters have one
    decomposition into white space, a text without white space at its ends,
    and white space. *)
Lemma space_prefix_unique (p1 p2 r1 r2 : list ascii) :
  p1 ++ r1 = p2 ++ r2 ->
  Forall (fun c => py_isspace c = true) p1 ->
  Forall (fun c => py_isspace c = true) p2 ->
  (exists c, head r1 = Some c /\ py_isspace c = false) ->
  (exists c, head r2 = Some c /\ py_isspace c = false) ->
  p1 = p2 /\ r1 = r2.
Proof.
  revert p2. induction p1 as [|a p1 IH]; intros [|b p2] Heq Hp1 Hp2 H1 H2.
  - done.
  - exfalso. destruct H1 as (c & Hc & Hns). simpl in Heq. subst r1.
    cbn in Hc. inversion Hc; subst. inversion Hp2; subst. congruence.
  - exfalso. destruct H2 as (c & Hc & Hns). simpl in Heq. subst r2.
    cbn in Hc. inversion Hc; subst. inversion Hp1; subst. congruence.
  - simpl in Heq. inversion Heq; subst.
    inversion Hp1; subst. inversion Hp2; subst.
    destruct (IH p2) as [-> ->]; auto.
Qed.

Lemma all_space_no_text (pre t suf l : list ascii) :
  l = pre ++ t ++ suf ->
  Forall (fun c => py_isspace c = true) l ->
  (forall c, head t = Some c -> py_isspace c = false) ->
  t = [].
Proof.
  intros -> Hall Hhead. destruct t as [|c t]; [done|].
  apply Forall_app in Hall as [_ Hall]. inversion Hall; subst.
  specialize (Hhead c eq_refl). congruence.
Qed.

Lemma trimmed_text_unique raw t1 t2 :
  trimmed_text raw t1 -> trimmed_text raw t2 -> t1 = t2.
Proof.
  intros (p1 & s1 & E1 & Hp1 & Hs1 & Hh1 & Hl1) (p2 & s2 & E2 & Hp2 & Hs2 & Hh2 & Hl2).
  rewrite <- (string_of_list_ascii_of_string t1), <- (string_of_list_ascii_of_string t2).
  f_equal. revert E1 E2 Hh1 Hl1 Hh2 Hl2.
  generalize (list_ascii_of_string t1) (list_ascii_of_string t2).
  generalize (List.map ascii_of_byte (List.filter (fun b => byte_val b <? 128) raw)).
  intros l u1 u2 E1 E2 Hh1 Hl1 Hh2 Hl2.
  destruct u1 as [|c1 u1], u2 as [|c2 u2]; [done| | |].
  - symmetry. apply (all_space_no_text p2 (c2 :: u2) s2 l E2); [|exact Hh2].
    rewrite E1. apply Forall_app. by split.
  - apply (all_space_no_text p1 (c1 :: u1) s1 l E1); [|exact Hh1].
    rewrite E2. apply Forall_app. by split.
  - destruct (space_prefix_unique p1 p2 ((c1 :: u1) ++ s1) ((c2 :: u2) ++ s2))
      as [_ Hrest]; [congruence|done|done|..].
    { exists c1. split; [done | by apply Hh1]. }
    { exists c2. split; [done | by apply Hh2]. }
    apply (f_equal reverse) in Hrest. rewrite !reverse_app in Hrest.
    destruct (space_prefix_unique (reverse s1) (reverse s2)
                (reverse (c1 :: u1)) (reverse (c2 :: u2)))
      as [_ Hrev]; [exact Hrest|by apply Forall_reverse|by apply Forall_reverse|..].
    { destruct (last (c1 :: u1)) as [c|] eqn:El.
      - exists c. rewrite head_reverse. split; [done | by apply Hl1].
      - by apply last_None in El. }
    { destruct (last (c2 :: u2)) as [c|] eqn:El.
      - exists c. rewrite head_reverse. split; [done | by apply Hl2].
      - by apply last_None in El. }
    by apply (inj reverse) in Hrev.
Qed.

(** C4, as the code has it.  For every buffer of 72 bytes or more the
    decode succeeds, and [serial], [model] and [firmware] are exactly what is
    left of the byte ranges [4,24), [24,64) and [64,72) once every byte of
    0x80 or more is dropped and the white space (codes 9-13 and 28-32) at
    both ends is removed.  NUL bytes and the other bytes below 0x80 are kept
    where they are, printable or not. *)
Theorem parse_identify_text_fields (data : list byte) :
  (72 <= length data)%nat ->
  exists r,
    parse_identify data = Ok (Some r)
    /\ (forall t, trimmed_text (slice 4 24 data) t <-> t = serial r)
    /\ (forall t, trimmed_text (slice 24 64 data) t <-> t = model r)
    /\ (forall t, trimmed_text (slice 64 72 data) t <-> t = firmware r).
Proof.
  intros Hlen.
  destruct (parse_identify_long data Hlen) as (b0 & b1 & b2 & b3 & _ & _ & _ & _ & Hp).
  eexists. split; [exact Hp|].
  cbn [serial model firmware].
  repeat split; intros Ht;
    solve [ eapply trimmed_text_unique; [exact Ht | apply strip_trimmed]
          | subst t; apply strip_trimmed ].
Qed.

Lemma parse_identify_text_fields_witness :
  exists r,
    parse_identify samsung_buffer = Ok (Some r)
    /\ (forall t, trimmed_text (slice 4 24 samsung_buffer) t <-> t = serial r)
    /\ (forall t, trimmed_text (slice 24 64 samsung_buffer) t <-> t = model r)
    /\ (forall t, trimmed_text (slice 64 72 samsung_buffer) t <-> t = firmware r).
Proof.
  apply (parse_identify_text_fields samsung_buffer).
  apply Nat.leb_le. vm_compute. reflexivity.
Defined.

(** C4, counterexample.  In [nul_padded_buffer] the serial number field is
    "AB" followed by 18 NUL bytes.  The decoded [serial] keeps the 18 NUL
    characters, while the field with the padding trimmed and the
    non-printable bytes discarded is "AB". *)
Lemma nul_padding_is_kept :
  exists r,
    parse_identify nul_padded_buffer = Ok (Some r)
    /\ serial r = "AB" +:+ str_repeat (String "000"%char EmptyString) 18
    /\ spec_text_field (slice 4 24 nul_padded_buffer) = "AB"%string
    /\ serial r <> spec_text_field (slice 4 24 nul_padded_buffer).
Proof.
  eexists. split; [vm_compute; reflexivity|].
  cbn [serial]. repeat split; [vm_compute; discriminate].
Qed.

(** ** Only the first 72 bytes matter *)

Lemma slice_take {A} (a b n : nat) (l : list A) :
  (a <= b <= n)%nat -> slice a b (take n l) = slice a b l.
Proof.
  intros H. unfold slice.
  rewrite skipn_firstn_comm, take_take. f_equal. lia.
Qed.

Lemma parse_identify_take data :
  (72 <= length data)%nat -> parse_identify data = parse_identify (take 72 data).
Proof.
  intros Hlen.
  assert (Hlen' : (72 <= length (take 72 data))%nat) by (rewrite length_take; lia).
  destruct (parse_identify_long data Hlen)
    as (b0 & b1 & b2 & b3 & H0 & H1 & H2 & H3 & ->).
  destruct (parse_identify_long (take 72 data) Hlen')
    as (c0 & c1 & c2 & c3 & K0 & K1 & K2 & K3 & ->).
  rewrite lookup_take_lt in K0, K1, K2, K3 by lia.
  rewrite !slice_take by lia.
  congruence.
Qed.

(** C9.  Two buffers of 72 bytes or more that agree on bytes 0 to 71 are
    decoded to the same record. *)
Theorem parse_identify_first_72 (d1 d2 : list byte) :
  (72 <= length d1)%nat ->
  (72 <= length d2)%nat ->
  take 72 d1 = take 72 d2 ->
  parse_identify d1 = parse_identify d2.
Proof.
  intros H1 H2 Heq.
  rewrite (parse_identify_take d1 H1), (parse_identify_take d2 H2).
  by rewrite Heq.
Qed.

Lemma parse_identify_first_72_witness :
  parse_identify samsung_buffer
  = parse_identify (take 72 samsung_buffer ++ replicate 100 xff).
Proof.
  apply parse_identify_first_72.
  - apply Nat.leb_le. vm_compute. reflexivity.
  - apply Nat.leb_le. vm_compute. reflexivity.
  - vm_compute. reflexivity.
Defined.

(** ** The Samsung scenario and the vendor table *)

Lemma vendor_name_unknown_iff v :
  vendor_name v = "Unknown"%string <-> VENDORS !! v = None.
Proof.
  unfold vendor_name. split.
  - destruct (VENDORS !! v) as [name|] eqn:E; [|done].
    intros Hname. cbn in Hname. subst name.
    apply elem_of_list_to_map_2 in E.
    repeat (apply elem_of_cons in E as [E|E]; [discriminate E|]).
    by apply elem_of_nil in E.
  - by intros ->.
Qed.

(** C8.  A buffer of 72 bytes or more whose bytes 0-1 are 4d 14 and whose
    bytes 24-63 are "Samsung SSD 990 PRO 1TB" padded with spaces decodes to
    [vid] 0x144d and [model] "Samsung SSD 990 PRO 1TB", and the table gives
    the vendor name "Samsung".  An identifier that is not a key of the table
    gets the name "Unknown" (and only such an identifier does). *)
Theorem samsung_scenario (data : list byte) :
  (72 <= length data)%nat ->
  data !! 0%nat = Some x4d ->
  data !! 1%nat = Some x14 ->
  slice 24 64 data = ascii_bytes "Samsung SSD 990 PRO 1TB" ++ replicate 17 x20 ->
  (exists r,
      parse_identify data = Ok (Some r)
      /\ vid r = 0x144d
      /\ model r = "Samsung SSD 990 PRO 1TB"%string
      /\ vendor_name (vid r) = "Samsung"%string)
  /\ (forall v, VENDORS !! v = None -> vendor_name v = "Unknown"%string).
Proof.
  intros Hlen H0 H1 Hmodel. split.
  - destruct (parse_identify_long data Hlen)
      as (b0 & b1 & b2 & b3 & K0 & K1 & _ & _ & Hp).
    assert (b0 = x4d) by congruence. assert (b1 = x14) by congruence. subst.
    eexists. split; [exact Hp|].
    cbn [vid model]. rewrite Hmodel. repeat split.
  - intros v Hv. by apply vendor_name_unknown_iff.
Qed.

Lemma samsung_scenario_witness :
  (exists r,
      parse_identify samsung_buffer = Ok (Some r)
      /\ vid r = 0x144d
      /\ model r = "Samsung SSD 990 PRO 1TB"%string
      /\ vendor_name (vid r) = "Samsung"%string)
  /\ (forall v, VENDORS !! v = None -> vendor_name v = "Unknown"%string).
Proof.
  apply (samsung_scenario samsung_buffer).
  - apply Nat.leb_le. vm_compute. reflexivity.
  - reflexivity.
  - reflexivity.
  - vm_compute. reflexivity.
Defined.

(** ** The blocked identity *)

Section InvalidIdentity.
Context {dev : Type} `{!BulkEndpoints dev}.

Lemma main_after_send_invalid (w : world dev) data res :
  is_empty data = false ->
  parse_identify data = Ok res ->
  invalid_result res = true ->
  main_after_send (Some data) w = invalid_response_exit w.
Proof.
  intros Hne Hp Hinv. unfold main_after_send, not_data.
  rewrite Hne. cbv beta iota. cbn [default from_option].
  change (id data) with data.
  unfold bind at 1, lift. rewrite Hp, Hinv.
  reflexivity.
Qed.

(** C7, as the code has it.  [parse_identify] decodes 4096 zero bytes to a
    record with [vid] 0, and [main] then prints "ERROR: Invalid response -
    firmware may be blocking identify" and leaves with [sys.exit(1)].  It
    does so for every record whose [vid] is 0 or 0xFFFF, and in the same way
    (same message, same exit status) when [parse_identify] returns [None]:
    the two cases share one branch. *)
Theorem zero_buffer_is_invalid_identity (w : world dev) :
  (exists r, parse_identify zero_buffer = Ok (Some r) /\ vid r = 0)
  /\ main_after_send (Some zero_buffer) w = invalid_response_exit w
  /\ (forall data r,
        parse_identify data = Ok (Some r) ->
        vid r = 0 \/ vid r = 0xFFFF ->
        main_after_send (Some data) w = invalid_response_exit w)
  /\ (forall data,
        data <> [] ->
        parse_identify data = Ok None ->
        main_after_send (Some data) w = invalid_response_exit w).
Proof.
  assert (Hz : exists r, parse_identify zero_buffer = Ok (Some r) /\ vid r = 0).
  { eexists. split; [vm_compute; reflexivity | reflexivity]. }
  assert (Hrec : forall data r,
             parse_identify data = Ok (Some r) ->
             vid r = 0 \/ vid r = 0xFFFF ->
             main_after_send (Some data) w = invalid_response_exit w).
  { intros data r Hp Hv.
    apply (main_after_send_invalid w data (Some r)); [|exact Hp|].
    - destruct data; [discriminate Hp | reflexivity].
    - cbn. destruct Hv as [-> | ->]; reflexivity. }
  split; [exact Hz|]. split; [|split; [exact Hrec|]].
  - destruct Hz as (r & Hp & Hv). apply (Hrec zero_buffer r Hp). by left.
  - intros data Hne Hp.
    apply (main_after_send_invalid w data None); [|exact Hp|reflexivity].
    destruct data; [done | reflexivity].
Qed.

End InvalidIdentity.

Lemma zero_buffer_is_invalid_identity_witness :
  main_after_send (Some (replicate 72 xff)) world_zero_response
  = invalid_response_exit world_zero_response
  /\ main_after_send (Some (replicate 71 x00)) world_zero_response
     = invalid_response_exit world_zero_response.
Proof.
  destruct (zero_buffer_is_invalid_identity world_zero_response)
    as (_ & _ & Hrec & Hnone).
  split.
  - apply (Hrec (replicate 72 xff)
                {| vid := 0xFFFF; ssvid := 0xFFFF;
                   serial := EmptyString; model := EmptyString;
                   firmware := EmptyString |}).
    + vm_compute. reflexivity.
    + right. reflexivity.
  - apply (Hnone (replicate 71 x00)).
    + discriminate.
    + vm_compute. reflexivity.
Defined.

(** C7, counterexample.  A response of 71 zero bytes cannot be decoded
    ([parse_identify] returns [None]); a response of 4096 zero bytes is
    decoded, to a record with [vid] 0.  The two sessions end in the same
    state with the same result: same exception, same lines printed. *)
Lemma blocked_identity_same_as_decode_failure :
  parse_identify (replicate 71 x00) = Ok None
  /\ (exists r, parse_identify zero_buffer = Ok (Some r) /\ vid r = 0)
  /\ main_from_send world_zero_response = main_from_send world_short_response
  /\ (main_from_send world_zero_response).1 = Raise (SystemExit 1).
Proof.
  split; [vm_compute; reflexivity|].
  split; [eexists; split; [vm_compute; reflexivity | reflexivity]|].
  split; vm_compute; reflexivity.
Qed.

(** ** The raw-data dump stays in range *)

Lemma py_range_In j a b : In j (py_range a b) <-> a <= j < b.
Proof.
  unfold py_range. rewrite in_map_iff. split.
  - intros (k & <- & Hk). apply in_seq in Hk. lia.
  - intros Hj. exists (Z.to_nat (j - a)). split; [lia|].
    apply in_seq. lia.
Qed.

Lemma row_range_bounds data i j :
  0 <= i -> In j (row_range data i) -> 0 <= j < len data.
Proof.
  intros Hi Hj. apply py_range_In in Hj. lia.
Qed.

Lemma py_getitem_in_range data j :
  0 <= j < len data -> exists b, py_getitem data j = Ok b.
Proof.
  intros Hj. unfold py_getitem.
  destruct (j <? 0) eqn:E0; [apply Z.ltb_lt in E0; lia|].
  rewrite E0. cbn [orb].
  destruct (len data <=? j) eqn:E1; [apply Z.leb_le in E1; lia|].
  destruct (lookup_lt_is_Some_2 data (Z.to_nat j)) as [b Hb]; [unfold len in Hj; lia|].
  rewrite Hb. eauto.
Qed.

Lemma mapM_result_ok {A B} (f : A -> result B) (l : list A) :
  (forall x, In x l -> exists y, f x = Ok y) ->
  exists ys, mapM_result f l = Ok ys.
Proof.
  induction l as [|x l IH]; intros Hf; [by exists []|].
  destruct (Hf x (or_introl eq_refl)) as [y Hy].
  destruct IH as [ys Hys]; [intros x' Hx'; apply Hf; by right|].
  exists (y :: ys). cbn [mapM_result]. rewrite Hy. cbn [rbind]. by rewrite Hys.
Qed.

Lemma dump_row_ok data i : 0 <= i -> exists line, dump_row data i = Ok line.
Proof.
  intros Hi. unfold dump_row.
  destruct (mapM_result_ok (hex_cell data) (row_range data i)) as [hs ->].
  { intros j Hj. unfold hex_cell.
    destruct (py_getitem_in_range data j) as [b ->]; [by eapply row_range_bounds|].
    cbn. eauto. }
  destruct (mapM_result_ok (ascii_cell data) (row_range data i)) as [cs ->].
  { intros j Hj. unfold ascii_cell.
    destruct (py_getitem_in_range data j) as [b ->]; [by eapply row_range_bounds|].
    cbn [rbind]. destruct (_ && _); cbn [rbind]; eauto. }
  cbn [rbind]. eauto.
Qed.

Lemma for_each_dump_ok {dev : Type} `{!BulkEndpoints dev}
    (data : list byte) (starts : list Z) (w : world dev) :
  Forall (fun i => 0 <= i) starts ->
  (for_each starts
     (fun i => bind (lift (dump_row data i)) (fun line => print line)) w).1 = Ok tt.
Proof.
  intros Hs. revert w. induction Hs as [|i starts Hi _ IH]; intros w; [reflexivity|].
  cbn [for_each]. unfold bind at 1. unfold bind at 1. unfold lift at 1.
  destruct (dump_row_ok data i Hi) as [line ->].
  unfold print at 1. apply IH.
Qed.

(** C10.  For a buffer of any length, every index [j] that a row of the
    dump reads lies in [0, len(data)), so [data[j]] never raises
    [IndexError], and the dump loop runs to its end on every buffer. *)
Theorem dump_indices_in_range (data : list byte) :
  Forall (fun i =>
            Forall (fun j => 0 <= j < len data
                             /\ exists b, py_getitem data j = Ok b)
                   (row_range data i))
         dump_starts
  /\ forall (dev : Type) (H : BulkEndpoints dev) (w : world dev),
       (dump_loop data w).1 = Ok tt.
Proof.
  assert (Hstarts : Forall (fun i => 0 <= i) dump_starts).
  { vm_compute. repeat constructor; discriminate. }
  split.
  - eapply Forall_impl; [exact Hstarts|]. intros i Hi. cbv beta in *.
    apply List.Forall_forall. intros j Hj.
    pose proof (row_range_bounds data i j Hi Hj) as Hb.
    split; [exact Hb | by apply py_getitem_in_range].
  - intros dev H w. unfold dump_loop. by apply for_each_dump_ok.
Qed.


(** * Further properties of the code *)

(** ** The wrapper: what [build_cbw] refuses *)



(** ** The transfers of one call of send_nvme_identify *)

Section TransferDiscipline.
Context {dev : Type} `{!BulkEndpoints dev}.
Implicit Types w : world dev.

(** The write succeeds and the data read raises. *)
Lemma send_data_read_raises w n d1 e d2 :
  ep_out_write (w_dev w) (cbw_image (tag_of_ms (w_now_ms w))) 5000 = (Ok n, d1) ->
  ep_in_read d1 4096 5000 = (Raise e, d2) ->
  send_nvme_identify w =
  let tr := w_trace w ++ [EvWrite (cbw_image (tag_of_ms (w_now_ms w))) 5000;
                          EvRead 4096 5000] in
  match as_USBError e with
  | Some msg =>
      (Ok None, World d2 (w_now_ms w) (tr ++ [EvPrint ("USB Error: " +:+ msg)]))
  | None => (Raise e, World d2 (w_now_ms w) tr)
  end.
Proof.
  intros Hw Hr1. unfold send_nvme_identify, bind, time_ms, lift.
  rewrite send_builds_cbw.
  unfold try_except_USBError, write, read, ret, print, log, set_dev.
  rewrite Hw. cbn. rewrite Hr1. cbn.
  rewrite <- ?app_assoc. cbn.
  destruct (as_USBError e); cbn; rewrite <- ?app_assoc; reflexivity.
Qed.

(** X2.  When the data read raises after an accepted write, the status
    read is not issued: the only bulk-IN request of the call is the one for
    4096 bytes.  A [USBError] is turned into the result [None]; any other
    exception leaves the function. *)
Theorem data_read_failure_skips_status w n d1 e d2 :
  ep_out_write (w_dev w) (cbw_image (tag_of_ms (w_now_ms w))) 5000 = (Ok n, d1) ->
  ep_in_read d1 4096 5000 = (Raise e, d2) ->
  (send_nvme_identify w).1 = (if as_USBError e is Some _ then Ok None else Raise e)
  /\ reads_of (new_events w (send_nvme_identify w).2) = [4096]
  /\ w_dev (send_nvme_identify w).2 = d2.
Proof.
  intros Hw Hr1. rewrite (send_data_read_raises w n d1 e d2 Hw Hr1). cbn zeta.
  destruct (as_USBError e); cbn [fst snd w_dev];
    rewrite <- ?app_assoc, new_events_app; repeat split.
Qed.


(** X4.  A [USBError] never leaves [send_nvme_identify]: an exception that
    does is not an instance of [usb.core.USBError]. *)
Theorem send_catches_every_usb_error w e :
  (send_nvme_identify w).1 = Raise e -> as_USBError e = None.
Proof.
  destruct (ep_out_write (w_dev w) (cbw_image (tag_of_ms (w_now_ms w))) 5000)
    as [[n|e1] d1] eqn:Hw.
  - destruct (ep_in_read d1 4096 5000) as [[data|e1] d2] eqn:Hr1.
    + destruct (ep_in_read d2 13 5000) as [r3 d3] eqn:Hr2.
      rewrite (send_after_data w n d1 data d2 r3 d3 Hw Hr1 Hr2). cbn zeta.
      destruct r3 as [csw|e1]; [discriminate|].
      destruct (as_USBError e1) eqn:E; cbn [fst]; [discriminate|].
      intros [= <-]. exact E.
    + rewrite (send_data_read_raises w n d1 e1 d2 Hw Hr1). cbn zeta.
      destruct (as_USBError e1) eqn:E; cbn [fst]; [discriminate|].
      intros [= <-]. exact E.
  - rewrite (send_write_raises w e1 d1 Hw). cbn zeta.
    destruct (as_USBError e1) eqn:E; cbn [fst]; [discriminate|].
    intros [= <-]. exact E.
Qed.

(** X5.  The data are returned only after the full round trip: when the
    result is a buffer, the call has written the wrapper and issued both
    reads, and the buffer is the one the 4096-byte read returned. *)
Theorem send_returns_data_after_status w data :
  (send_nvme_identify w).1 = Ok (Some data) ->
  transfers_of (new_events w (send_nvme_identify w).2)
  = round_trip (cbw_image (tag_of_ms (w_now_ms w)))
  /\ exists n d1 d2,
       ep_out_write (w_dev w) (cbw_image (tag_of_ms (w_now_ms w))) 5000 = (Ok n, d1)
       /\ ep_in_read d1 4096 5000 = (Ok data, d2).
Proof.
  destruct (ep_out_write (w_dev w) (cbw_image (tag_of_ms (w_now_ms w))) 5000)
    as [[n|e1] d1] eqn:Hw.
  - destruct (ep_in_read d1 4096 5000) as [[data'|e1] d2] eqn:Hr1.
    + destruct (ep_in_read d2 13 5000) as [r3 d3] eqn:Hr2.
      rewrite (send_after_data w n d1 data' d2 r3 d3 Hw Hr1 Hr2). cbn zeta.
      destruct r3 as [csw|e1]; [|destruct (as_USBError e1)];
        cbn [fst snd]; try discriminate.
      intros [= <-]. rewrite new_events_app. split; [reflexivity|].
      by exists n, d1, d2.
    + rewrite (send_data_read_raises w n d1 e1 d2 Hw Hr1). cbn zeta.
      destruct (as_USBError e1); cbn [fst]; discriminate.
  - rewrite (send_write_raises w e1 d1 Hw). cbn zeta.
    destruct (as_USBError e1); cbn [fst]; discriminate.
Qed.

End TransferDiscipline.

Lemma data_read_failure_skips_status_witness :
  (send_nvme_identify world_data_timeout).1 = Ok None
  /\ reads_of (new_events world_data_timeout
                 (send_nvme_identify world_data_timeout).2) = [4096]
  /\ w_dev (send_nvme_identify world_data_timeout).2 = SimDev (Ok 31) [Ok good_csw].
Proof.
  exact (data_read_failure_skips_status world_data_timeout 31
           (SimDev (Ok 31) [Raise (USBTimeoutError "Operation timed out"); Ok good_csw])
           (USBTimeoutError "Operation timed out")
           (SimDev (Ok 31) [Ok good_csw]) eq_refl eq_refl).
Defined.

Lemma send_catches_every_usb_error_witness :
  as_USBError (ValueError "Invalid endpoint address") = None.
Proof.
  exact (send_catches_every_usb_error world_write_value_error
           (ValueError "Invalid endpoint address") eq_refl).
Defined.

Lemma send_returns_data_after_status_witness :
  transfers_of (new_events world_samsung (send_nvme_identify world_samsung).2)
  = round_trip (cbw_image (tag_of_ms 0))
  /\ exists n d1 d2,
       ep_out_write (w_dev world_samsung) (cbw_image (tag_of_ms 0)) 5000 = (Ok n, d1)
       /\ ep_in_read d1 4096 5000 = (Ok samsung_buffer, d2).
Proof.
  exact (send_returns_data_after_status world_samsung samsung_buffer eq_refl).
Defined.

(** ** How the session ends *)

Section SessionEnd.
Context {dev : Type} `{!BulkEndpoints dev}.
Implicit Types w : world dev.

Lemma for_each_print_run (f : Z -> result string) (l : list Z) (rows : list string) w :
  mapM_result f l = Ok rows ->
  for_each l (fun i => bind (lift (f i)) (fun line => print line)) w
  = (Ok tt, World (w_dev w) (w_now_ms w) (w_trace w ++ List.map EvPrint rows)).
Proof.
  revert rows w. induction l as [|i l IH]; intros rows w Hrows.
  - cbn in Hrows. injection Hrows as <-. cbn. rewrite app_nil_r. by destruct w.
  - cbn [mapM_result] in Hrows.
    destruct (f i) as [line|] eqn:Hf; [|discriminate].
    destruct (mapM_result f l) as [rows'|] eqn:Hl; [|discriminate].
    cbn in Hrows. injection Hrows as <-.
    cbn [for_each]. unfold bind at 1. unfold bind at 1. unfold lift at 1.
    rewrite Hf. unfold print at 1.
    rewrite (IH rows' _ eq_refl). unfold log. cbn [w_dev w_now_ms w_trace List.map].
    by rewrite <- app_assoc.
Qed.

Lemma dump_rows_ok (data : list byte) :
  exists rows, mapM_result (dump_row data) dump_starts = Ok rows
               /\ length rows = 5%nat.
Proof.
  change dump_starts with [0; 16; 32; 48; 64]. cbn [mapM_result].
  destruct (dump_row_ok data 0) as [r0 ->]; [lia|].
  destruct (dump_row_ok data 16) as [r1 ->]; [lia|].
  destruct (dump_row_ok data 32) as [r2 ->]; [lia|].
  destruct (dump_row_ok data 48) as [r3 ->]; [lia|].
  destruct (dump_row_ok data 64) as [r4 ->]; [lia|].
  cbn [rbind]. by eexists.
Qed.

Lemma main_after_send_valid w data r :
  parse_identify data = Ok (Some r) ->
  vid r <> 0 -> vid r <> 0xFFFF ->
  exists rows,
    mapM_result (dump_row data) dump_starts = Ok rows
    /\ length rows = 5%nat
    /\ main_after_send (Some data) w
       = (Ok tt,
          World (w_dev w) (w_now_ms w)
            (w_trace w ++
             List.map EvPrint
               ([nl +:+ str_repeat "=" 65; "  REAL SSD IDENTITY"%string;
                 str_repeat "=" 65; report r; str_repeat "=" 65;
                 nl +:+ "Raw data (first 80 bytes):"]
                ++ rows
                ++ [nl +:+ "Remount drive with: diskutil mountDisk /dev/diskN"]))).
Proof.
  intros Hp Hv0 Hvf.
  destruct (dump_rows_ok data) as (rows & Hrows & Hlen).
  exists rows. split; [exact Hrows|]. split; [exact Hlen|].
  assert (Hne : is_empty data = false) by (destruct data; [discriminate Hp|done]).
  assert (Hinv : invalid_result (Some r) = false).
  { cbn. apply orb_false_iff. split; by apply Z.eqb_neq. }
  unfold main_after_send, not_data. rewrite Hne. cbv beta iota.
  cbn [default from_option]. change (id data) with data.
  unfold bind at 1, lift. rewrite Hp, Hinv. cbv beta iota.
  unfold dump_loop.
  repeat (unfold bind at 1; unfold print at 1).
  rewrite (for_each_print_run (dump_row data) dump_starts rows _ Hrows).
  unfold print, log. cbn [w_dev w_now_ms w_trace].
  rewrite !List.map_app. cbn [List.map]. rewrite <- !app_assoc. reflexivity.
Qed.

(** X6.  When the device is a real controller (the decoded [vid] is neither
    0 nor 0xFFFF), the rest of [main] ends normally without any transfer
    and prints twelve lines: the banner, the report with the three text
    fields and the vendor, the five rows of the dump and the remount
    hint. *)
Theorem main_reports_valid_identity w data r :
  parse_identify data = Ok (Some r) ->
  vid r <> 0 ->
  vid r <> 0xFFFF ->
  exists rows w',
    main_after_send (Some data) w = (Ok tt, w')
    /\ mapM_result (dump_row data) dump_starts = Ok rows
    /\ length rows = 5%nat
    /\ w_dev w' = w_dev w
    /\ new_events w w'
       = List.map EvPrint
           ([nl +:+ str_repeat "=" 65; "  REAL SSD IDENTITY"%string;
             str_repeat "=" 65; report r; str_repeat "=" 65;
             nl +:+ "Raw data (first 80 bytes):"]
            ++ rows
            ++ [nl +:+ "Remount drive with: diskutil mountDisk /dev/diskN"]).
Proof.
  intros Hp Hv0 Hvf.
  destruct (main_after_send_valid w data r Hp Hv0 Hvf) as (rows & Hrows & Hlen & Hrun).
  eexists rows, _. split; [exact Hrun|].
  split; [exact Hrows|]. split; [exact Hlen|]. split; [reflexivity|].
  apply new_events_app.
Qed.

(** X7.  The rest of [main] ends in one of two ways only, normally or with
    [sys.exit(1)]: no [IndexError] or [struct.error] of the decoder or of
    the dump leaves it.  It ends normally exactly when the response decodes
    to a record whose [vid] is neither 0 nor 0xFFFF. *)
Theorem main_after_send_outcomes w (data : option (list byte)) :
  ((main_after_send data w).1 = Ok tt
   \/ (main_after_send data w).1 = Raise (SystemExit 1))
  /\ ((main_after_send data w).1 = Ok tt <->
      exists bs r, data = Some bs /\ parse_identify bs = Ok (Some r)
                   /\ vid r <> 0 /\ vid r <> 0xFFFF).
Proof.
  assert (Hcases :
    (exists bs r, data = Some bs /\ parse_identify bs = Ok (Some r)
                  /\ vid r <> 0 /\ vid r <> 0xFFFF)
    \/ ((main_after_send data w).1 = Raise (SystemExit 1)
        /\ ~ exists bs r, data = Some bs /\ parse_identify bs = Ok (Some r)
                          /\ vid r <> 0 /\ vid r <> 0xFFFF)).
  { destruct data as [bs|].
    - destruct (is_empty bs) eqn:Hne.
      + right. destruct bs; [|discriminate]. split; [reflexivity|].
        intros (bs' & r & [= <-] & Hp & _). discriminate Hp.
      + destruct (Nat.lt_ge_cases (length bs) 72) as [Hlt|Hge].
        * right. pose proof (parse_identify_short bs Hlt) as Hp. split.
          -- by rewrite (main_after_send_invalid w bs None Hne Hp eq_refl).
          -- intros (bs' & r & [= <-] & Hp' & _). congruence.
        * destruct (parse_identify_long bs Hge)
            as (b0 & b1 & b2 & b3 & _ & _ & _ & _ & Hp).
          match type of Hp with _ = Ok (Some ?r0) => set (r := r0) in * end.
          destruct (invalid_result (Some r)) eqn:Hinv.
          -- right. split.
             ++ by rewrite (main_after_send_invalid w bs (Some r) Hne Hp Hinv).
             ++ intros (bs' & r' & [= <-] & Hp' & Hv0 & Hvf).
                assert (r' = r) by congruence. subst r'.
                cbn [invalid_result] in Hinv. apply orb_true_iff in Hinv.
                destruct Hinv as [E|E]; apply Z.eqb_eq in E; contradiction.
          -- left. exists bs, r. split; [reflexivity|]. split; [exact Hp|].
             cbn [invalid_result] in Hinv. apply orb_false_iff in Hinv.
             destruct Hinv as [E0 Ef]. split; by apply Z.eqb_neq.
    - right. split; [reflexivity|]. intros (bs & r & Hd & _). discriminate Hd. }
  destruct Hcases as [(bs & r & -> & Hp & Hv0 & Hvf) | [Hexit Hno]].
  - destruct (main_after_send_valid w bs r Hp Hv0 Hvf) as (rows & _ & _ & Hrun).
    rewrite Hrun. split; [by left|]. split; [|done].
    intros _. by exists bs, r.
  - rewrite Hexit. split; [by right|]. split; [discriminate | done].
Qed.

(** X8.  A data phase that returns no byte is reported as "ERROR: No
    response from drive" with [sys.exit(1)], and the decoder is not run on
    it: the lines printed are the announcement and that message only. *)
Theorem empty_response_is_no_response w n d1 d2 csw d3 :
  ep_out_write (w_dev w) (cbw_image (tag_of_ms (w_now_ms w))) 5000 = (Ok n, d1) ->
  ep_in_read d1 4096 5000 = (Ok [], d2) ->
  ep_in_read d2 13 5000 = (Ok csw, d3) ->
  (main_from_send w).1 = Raise (SystemExit 1)
  /\ prints_of (new_events w (main_from_send w).2)
     = [nl +:+ "Sending NVMe Identify command...";
        nl +:+ "ERROR: No response from drive"].
Proof.
  intros Hw Hr1 Hr2. rewrite main_from_send_unfold.
  rewrite (send_after_data (log _ w) n d1 [] d2 (Ok csw) d3 Hw Hr1 Hr2).
  cbv zeta. unfold log. cbn [w_dev w_now_ms w_trace].
  unfold main_after_send, not_data, is_empty. cbv beta iota.
  unfold bind, print, sys_exit, raise, log. cbn [fst snd w_dev w_now_ms w_trace].
  rewrite <- !app_assoc, new_events_app. split; reflexivity.
Qed.

End SessionEnd.

Lemma main_reports_valid_identity_witness :
  exists rows w',
    main_after_send (Some samsung_buffer) world_samsung = (Ok tt, w')
    /\ mapM_result (dump_row samsung_buffer) dump_starts = Ok rows
    /\ length rows = 5%nat
    /\ w_dev w' = w_dev world_samsung
    /\ new_events world_samsung w'
       = List.map EvPrint
           ([nl +:+ str_repeat "=" 65; "  REAL SSD IDENTITY"%string;
             str_repeat "=" 65;
             report {| vid := 0x144d; ssvid := 0x144d;
                       serial := "S5GXNF0R123456";
                       model := "Samsung SSD 990 PRO 1TB";
                       firmware := "4B2QJXD7" |};
             str_repeat "=" 65;
             nl +:+ "Raw data (first 80 bytes):"]
            ++ rows
            ++ [nl +:+ "Remount drive with: diskutil mountDisk /dev/diskN"]).
Proof.
  apply (main_reports_valid_identity world_samsung samsung_buffer).
  - vm_compute. reflexivity.
  - discriminate.
  - discriminate.
Defined.

Lemma empty_response_is_no_response_witness :
  (main_from_send world_empty_response).1 = Raise (SystemExit 1)
  /\ prints_of (new_events world_empty_response
                  (main_from_send world_empty_response).2)
     = [nl +:+ "Sending NVMe Identify command...";
        nl +:+ "ERROR: No response from drive"].
Proof.
  exact (empty_response_is_no_response world_empty_response 31
           (SimDev (Ok 31) [Ok []; Ok good_csw])
           (SimDev (Ok 31) [Ok good_csw]) good_csw (SimDev (Ok 31) [])
           eq_refl eq_refl eq_refl).
Defined.

(** ** More on the text fields *)

Lemma char_code_of_byte b : char_code (ascii_of_byte b) = byte_val b.
Proof. destruct b; reflexivity. Qed.

Lemma length_list_ascii s : length (list_ascii_of_string s) = String.length s.
Proof. induction s as [|c s IH]; [reflexivity|]. cbn. by rewrite IH. Qed.

Lemma lstrip_clean s :
  (forall c, head (list_ascii_of_string s) = Some c -> py_isspace c = false) ->
  lstrip s = s.
Proof.
  destruct s as [|c s]; [reflexivity|]. intros H. cbn [lstrip].
  by rewrite (H c eq_refl).
Qed.

Lemma rstrip_clean s :
  (forall c, last (list_ascii_of_string s) = Some c -> py_isspace c = false) ->
  rstrip s = s.
Proof.
  induction s as [|c s IH]; [reflexivity|]. intros H. cbn [rstrip].
  destruct s as [|c' s'].
  - cbn [rstrip]. by rewrite (H c eq_refl).
  - rewrite IH; [reflexivity|]. intros c0 Hc0. apply H. exact Hc0.
Qed.

Lemma strip_ends s :
  (forall c, head (list_ascii_of_string (strip s)) = Some c -> py_isspace c = false)
  /\ (forall c, last (list_ascii_of_string (strip s)) = Some c -> py_isspace c = false).
Proof.
  unfold strip.
  destruct (lstrip_split s) as (pre & _ & _ & Hhead).
  destruct (rstrip_split (lstrip s)) as (suf & _ & _ & Hlast).
  split; [|exact Hlast]. intros c Hc. by apply Hhead, rstrip_head.
Qed.

(** X9.  [strip] changes nothing in a text that has no white space at
    either end, and stripping twice is stripping once. *)
Theorem strip_fixed_points (s : string) :
  strip (strip s) = strip s
  /\ ((forall c, head (list_ascii_of_string s) = Some c -> py_isspace c = false) ->
      (forall c, last (list_ascii_of_string s) = Some c -> py_isspace c = false) ->
      strip s = s).
Proof.
  assert (Hclean : forall t,
    (forall c, head (list_ascii_of_string t) = Some c -> py_isspace c = false) ->
    (forall c, last (list_ascii_of_string t) = Some c -> py_isspace c = false) ->
    strip t = t).
  { intros t Hh Hl. unfold strip. rewrite (lstrip_clean t Hh). by apply rstrip_clean. }
  split; [|apply Hclean].
  destruct (strip_ends s) as [Hh Hl]. by apply Hclean.
Qed.

Lemma strip_fixed_points_witness :
  strip (strip "  4B2QJXD7 ") = strip "  4B2QJXD7 "
  /\ strip "Samsung SSD 990 PRO 1TB" = "Samsung SSD 990 PRO 1TB"%string.
Proof.
  split.
  - apply (proj1 (strip_fixed_points "  4B2QJXD7 ")).
  - apply (proj2 (strip_fixed_points "Samsung SSD 990 PRO 1TB"));
      intros c [= <-]; reflexivity.
Defined.

Lemma decode_ascii_ignore_length bs :
  (String.length (decode_ascii_ignore bs) <= length bs)%nat.
Proof.
  induction bs as [|b bs IH]; [reflexivity|].
  cbn [decode_ascii_ignore]. destruct (byte_val b <? 128); cbn; lia.
Qed.

Lemma decode_ascii_ignore_codes bs :
  Forall (fun c => 0 <= char_code c < 128)
         (list_ascii_of_string (decode_ascii_ignore bs)).
Proof.
  induction bs as [|b bs IH]; [constructor|].
  cbn [decode_ascii_ignore]. destruct (byte_val b <? 128) eqn:E; [|exact IH].
  cbn. constructor; [|exact IH].
  rewrite char_code_of_byte. apply Z.ltb_lt in E.
  pose proof (byte_val_range b). lia.
Qed.

Lemma strip_part s :
  exists pre suf,
    list_ascii_of_string s = pre ++ list_ascii_of_string (strip s) ++ suf.
Proof.
  unfold strip.
  destruct (lstrip_split s) as (pre & Hl & _ & _).
  destruct (rstrip_split (lstrip s)) as (suf & Hr & _ & _).
  exists pre, suf. rewrite Hl at 1. by rewrite Hr at 1.
Qed.

Lemma text_field_bounded (raw : list byte) (n : nat) :
  (length raw <= n)%nat ->
  (String.length (strip (decode_ascii_ignore raw)) <= n)%nat
  /\ Forall (fun c => 0 <= char_code c < 128)
            (list_ascii_of_string (strip (decode_ascii_ignore raw))).
Proof.
  intros Hn.
  destruct (strip_part (decode_ascii_ignore raw)) as (pre & suf & Hs).
  pose proof (decode_ascii_ignore_length raw) as Hlen.
  pose proof (decode_ascii_ignore_codes raw) as Hcodes.
  rewrite <- length_list_ascii in Hlen. rewrite Hs in Hlen, Hcodes.
  rewrite !length_app in Hlen. rewrite length_list_ascii in Hlen.
  split; [lia|].
  apply Forall_app in Hcodes as [_ Hcodes]. by apply Forall_app in Hcodes as [Hcodes _].
Qed.

Lemma length_slice_le {A} (a b : nat) (l : list A) :
  (length (slice a b l) <= b - a)%nat.
Proof. unfold slice. rewrite length_take. lia. Qed.

(** X10.  In every record [parse_identify] returns, the serial number has
    at most 20 characters, the model number at most 40 and the firmware
    revision at most 8, and all of them are ASCII (codes below 128). *)
Theorem text_fields_are_bounded_ascii (data : list byte) (r : identify) :
  parse_identify data = Ok (Some r) ->
  (String.length (serial r) <= 20)%nat
  /\ (String.length (model r) <= 40)%nat
  /\ (String.length (firmware r) <= 8)%nat
  /\ Forall (fun c => 0 <= char_code c < 128)
       (list_ascii_of_string (serial r) ++ list_ascii_of_string (model r)
        ++ list_ascii_of_string (firmware r)).
Proof.
  intros Hp.
  destruct (Nat.lt_ge_cases (length data) 72) as [Hlt|Hge].
  { rewrite (parse_identify_short data Hlt) in Hp. discriminate Hp. }
  destruct (parse_identify_long data Hge) as (b0 & b1 & b2 & b3 & _ & _ & _ & _ & Hp').
  rewrite Hp' in Hp. injection Hp as <-. cbn [serial model firmware].
  destruct (text_field_bounded (slice 4 24 data) 20) as [L1 C1];
    [apply (length_slice_le 4 24)|].
  destruct (text_field_bounded (slice 24 64 data) 40) as [L2 C2];
    [apply (length_slice_le 24 64)|].
  destruct (text_field_bounded (slice 64 72 data) 8) as [L3 C3];
    [apply (length_slice_le 64 72)|].
  repeat split; try assumption.
  apply Forall_app. split; [exact C1|]. apply Forall_app. by split.
Qed.

Lemma text_fields_are_bounded_ascii_witness :
  (String.length "S5GXNF0R123456" <= 20)%nat
  /\ (String.length "Samsung SSD 990 PRO 1TB" <= 40)%nat
  /\ (String.length "4B2QJXD7" <= 8)%nat
  /\ Forall (fun c => 0 <= char_code c < 128)
       (list_ascii_of_string "S5GXNF0R123456"
        ++ list_ascii_of_string "Samsung SSD 990 PRO 1TB"
        ++ list_ascii_of_string "4B2QJXD7").
Proof.
  apply (text_fields_are_bounded_ascii samsung_buffer
           {| vid := 0x144d; ssvid := 0x144d;
              serial := "S5GXNF0R123456";
              model := "Samsung SSD 990 PRO 1TB";
              firmware := "4B2QJXD7" |}).
  vm_compute. reflexivity.
Defined.

(** X11.  The lenient decoding loses the bytes of 0x80 or more and nothing
    else: encoding the decoded text again gives back the bytes below 0x80,
    in order, so a buffer of ASCII bytes is decoded without loss. *)
Theorem decode_ascii_ignore_round_trip (bs : list byte) :
  ascii_bytes (decode_ascii_ignore bs) = List.filter (fun b => byte_val b <? 128) bs
  /\ (Forall (fun b => byte_val b < 128) bs ->
      ascii_bytes (decode_ascii_ignore bs) = bs).
Proof.
  assert (Hgen : ascii_bytes (decode_ascii_ignore bs)
                 = List.filter (fun b => byte_val b <? 128) bs).
  { unfold ascii_bytes. rewrite decode_ascii_ignore_chars, List.map_map.
    rewrite (List.map_ext _ (fun b => b)) by apply byte_of_ascii_of_byte.
    apply List.map_id. }
  split; [exact Hgen|].
  intros Hall. rewrite Hgen. clear Hgen.
  induction Hall as [|b bs Hb _ IH]; [reflexivity|].
  cbn [List.filter]. apply Z.ltb_lt in Hb. rewrite Hb. by rewrite IH.
Qed.

Lemma decode_ascii_ignore_round_trip_witness :
  ascii_bytes (decode_ascii_ignore (ascii_bytes "4B2QJXD7")) = ascii_bytes "4B2QJXD7".
Proof.
  apply (proj2 (decode_ascii_ignore_round_trip (ascii_bytes "4B2QJXD7"))).
  repeat constructor.
Defined.

(** ** Reading the wrapper back *)

Lemma build_cbw_ok_inv tag cdb cbw :
  build_cbw tag cdb = Ok cbw -> 0 <= tag < 2 ^ 32 /\ (length cdb <= 16)%nat.
Proof.
  intros Hb. split.
  - destruct (Z.leb_spec 0 tag) as [H0|H0];
      [destruct (Z.ltb_spec tag (2 ^ 32)) as [H1|H1]; [lia|]|]; exfalso;
      revert Hb; unfold build_cbw, struct_pack_IIIBBB;
      rewrite (pack_uint_ok 4 CBW_SIGNATURE) by (unfold CBW_SIGNATURE; simpl; lia);
      cbn [rbind]; unfold pack_uint at 1.
    + destruct (0 <=? tag); cbn [andb]; [|discriminate].
      destruct (tag <? 2 ^ (8 * Z.of_nat 4)) eqn:E; [|discriminate].
      apply Z.ltb_lt in E. change (2 ^ (8 * Z.of_nat 4)) with (2 ^ 32) in E. lia.
    + destruct (0 <=? tag) eqn:E; [apply Z.leb_le in E; lia|]. discriminate.
  - destruct (Nat.le_gt_cases (length cdb) 16) as [Hle|Hgt]; [exact Hle|]. exfalso.
    revert Hb. unfold build_cbw.
    destruct (struct_pack_IIIBBB _ _ _ _ _ _); cbn [rbind]; [|discriminate].
    unfold py_bytes, len.
    destruct (16 - Z.of_nat (length cdb) <? 0) eqn:E; [discriminate|].
    apply Z.ltb_ge in E. lia.
Qed.

(** X12.  The wrapper can be read back: in every wrapper [build_cbw]
    returns, bytes 4..7 are the tag in little-endian order, byte 14 is the
    length of the CDB, and the cdb field starts with the CDB itself.  So the
    wrapper determines the tag and the CDB it was built from. *)
Theorem build_cbw_round_trip (tag : Z) (cdb cbw : list byte) :
  build_cbw tag cdb = Ok cbw ->
  le_value (slice 4 8 cbw) = tag
  /\ byte_val <$> cbw !! 14%nat = Some (len cdb)
  /\ take (length cdb) (drop 15 cbw) = cdb.
Proof.
  intros Hb. destruct (build_cbw_ok_inv tag cdb cbw Hb) as [Htag Hlen].
  rewrite (build_cbw_ok tag cdb Htag Hlen) in Hb. injection Hb as <-.
  cbn [le_bytes app]. split; [|split].
  - change (le_value (le_bytes 4 tag) = tag). by apply le_value_le_bytes.
  - cbn. f_equal. rewrite byte_val_of_Z. unfold len. apply Z.mod_small. lia.
  - cbn [drop skipn]. rewrite drop_0. by rewrite take_app_length.
Qed.

Lemma build_cbw_round_trip_witness :
  le_value (slice 4 8 (cbw_image 0x01020304)) = 0x01020304
  /\ byte_val <$> cbw_image 0x01020304 !! 14%nat = Some (len identify_cdb)
  /\ take (length identify_cdb) (drop 15 (cbw_image 0x01020304)) = identify_cdb.
Proof.
  apply (build_cbw_round_trip 0x01020304 identify_cdb (cbw_image 0x01020304)).
  reflexivity.
Defined.

(** ** The vendor table *)

(** X13.  [VENDORS.get(vid, "Unknown")] is "Unknown" exactly for the
    identifiers that are not among the seventeen keys of the table: no
    vendor of the table is itself named "Unknown". *)
Theorem vendor_name_known_iff (v : Z) :
  vendor_name v <> "Unknown"%string <->
  In v [0x1987; 0x144d; 0x15b7; 0x1e0f; 0x1c5c; 0x126f; 0x1179; 0x2646; 0x1dee;
        0x1e4b; 0x1d97; 0x025e; 0x8086; 0x1344; 0x1cc1; 0xc0a9; 0x1d79].
Proof.
  rewrite vendor_name_unknown_iff. unfold VENDORS.
  rewrite <- not_elem_of_list_to_map. rewrite <- list_elem_of_In. cbn [fmap list_fmap fst].
  split; [|intros H Hn; by apply Hn].
  intros H. destruct (decide (v ∈ [0x1987; 0x144d; 0x15b7; 0x1e0f; 0x1c5c; 0x126f;
                                   0x1179; 0x2646; 0x1dee; 0x1e4b; 0x1d97; 0x025e;
                                   0x8086; 0x1344; 0x1cc1; 0xc0a9; 0x1d79]))
    as [Hin|Hout]; [exact Hin | by destruct H].
Qed.

(** ** The cells and the coverage of the dump *)

Lemma format_x_2_byte b : String.length (format_x 2 (byte_val b)) = 2%nat.
Proof. destruct b; reflexivity. Qed.

(** X14.  Every cell of the dump has a fixed width and is safe to print:
    a hex cell is two characters, and a cell of the ASCII column is one
    character with a code from 32 to 126, the byte itself when it is in
    that range and a dot otherwise. *)
Theorem dump_cells_are_printable (data : list byte) (j : Z) :
  (forall s, hex_cell data j = Ok s -> String.length s = 2%nat)
  /\ (forall s, ascii_cell data j = Ok s ->
        exists b c,
          py_getitem data j = Ok b
          /\ s = String c EmptyString
          /\ 32 <= char_code c < 127
          /\ c = (if (32 <=? byte_val b) && (byte_val b <? 127)
                  then ascii_of_byte b else "."%char)).
Proof.
  split.
  - intros s. unfold hex_cell. destruct (py_getitem data j) as [b|]; [|discriminate].
    cbn [rbind]. intros [= <-]. apply format_x_2_byte.
  - intros s. unfold ascii_cell. destruct (py_getitem data j) as [b|]; [|discriminate].
    cbn [rbind]. destruct ((32 <=? byte_val b) && (byte_val b <? 127)) eqn:E.
    + cbn [rbind]. intros [= <-]. exists b, (ascii_of_byte b).
      pose proof E as E0. apply andb_true_iff in E0 as [E1 E2].
      apply Z.leb_le in E1. apply Z.ltb_lt in E2.
      split; [reflexivity|]. split; [reflexivity|].
      split; [rewrite char_code_of_byte; lia | by rewrite E].
    + intros [= <-]. exists b, "."%char.
      split; [reflexivity|]. split; [reflexivity|].
      split; [by vm_compute | by rewrite E].
Qed.

Lemma dump_cells_are_printable_witness :
  String.length "4d" = 2%nat
  /\ exists b c,
       py_getitem samsung_buffer 1 = Ok b
       /\ "."%string = String c EmptyString
       /\ 32 <= char_code c < 127
       /\ c = (if (32 <=? byte_val b) && (byte_val b <? 127)
               then ascii_of_byte b else "."%char).
Proof.
  split.
  - apply (proj1 (dump_cells_are_printable samsung_buffer 0)). reflexivity.
  - apply (proj2 (dump_cells_are_printable samsung_buffer 1)). reflexivity.
Defined.

Lemma py_range_nil a b : b <= a -> py_range a b = [].
Proof.
  intros H. unfold py_range. replace (Z.to_nat (b - a)) with 0%nat by lia. reflexivity.
Qed.

Lemma py_range_cons a b : a < b -> py_range a b = a :: py_range (a + 1) b.
Proof.
  intros H. unfold py_range.
  replace (Z.to_nat (b - a)) with (S (Z.to_nat (b - (a + 1)))) by lia.
  cbn [seq List.map]. f_equal; [lia|].
  rewrite <- seq_shift, List.map_map. apply List.map_ext. intros k. lia.
Qed.

Lemma py_range_app a b c :
  a <= b -> b <= c -> py_range a b ++ py_range b c = py_range a c.
Proof.
  intros Hab Hbc.
  remember (Z.to_nat (b - a)) as n eqn:Hn. revert a Hab Hn.
  induction n as [|n IH]; intros a Hab Hn.
  - assert (a = b) by lia. subst a. by rewrite (py_range_nil b b) by lia.
  - rewrite (py_range_cons a b), (py_range_cons a c) by lia.
    cbn [app]. f_equal. apply IH; lia.
Qed.

Lemma py_range_clip_app a b c L :
  a <= b -> b <= c ->
  py_range a (Z.min b L) ++ py_range b (Z.min c L) = py_range a (Z.min c L).
Proof.
  intros Hab Hbc. destruct (Z.le_gt_cases L b) as [Hle|Hgt].
  - rewrite (py_range_nil b (Z.min c L)) by lia. rewrite app_nil_r.
    f_equal. lia.
  - replace (Z.min b L) with b by lia. apply py_range_app; lia.
Qed.

(** X15.  The rows of the dump show the bytes 0 to min(80, len(data)) - 1,
    each index once and in order: a buffer shorter than 80 bytes is dumped
    whole, on fewer or shorter rows, and no byte past index 79 is shown. *)
Theorem dump_covers_first_80 (data : list byte) :
  concat (List.map (row_range data) dump_starts)
  = py_range 0 (Z.min 80 (len data)).
Proof.
  change dump_starts with [0; 16; 32; 48; 64].
  cbn [List.map concat]. unfold row_range. cbn [Z.add]. rewrite app_nil_r.
  rewrite (py_range_clip_app 48 64 80) by lia.
  rewrite (py_range_clip_app 32 48 80) by lia.
  rewrite (py_range_clip_app 16 32 80) by lia.
  rewrite (py_range_clip_app 0 16 80) by lia.
  reflexivity.
Qed.

(** ** Device discovery and endpoint selection *)

Lemma py_or_assoc {A} (a b c : option A) : py_or (py_or a b) c = py_or a (py_or b c).
Proof. by destruct a. Qed.

Lemma py_or_None_r {A} (a : option A) : py_or a None = a.
Proof. by destruct a. Qed.

Lemma find_app_py_or {A} (f : A -> bool) (l1 l2 : list A) :
  List.find f (l1 ++ l2) = py_or (List.find f l1) (List.find f l2).
Proof.
  induction l1 as [|x l1 IH]; [reflexivity|].
  cbn [app List.find]. by destruct (f x).
Qed.

(** One interface: each of the two variables keeps its value if it has
    one, and otherwise takes the first endpoint of its kind. *)
Lemma fold_note_endpoint (intf : list usb_endpoint) ep_in ep_out :
  fold_left note_endpoint intf (ep_in, ep_out)
  = (py_or ep_in (List.find is_bulk_in intf),
     py_or ep_out (List.find is_bulk_out intf)).
Proof.
  revert ep_in ep_out. induction intf as [|ep intf IH]; intros ep_in ep_out.
  - cbn. by rewrite !py_or_None_r.
  - cbn [fold_left List.find]. unfold note_endpoint at 2, is_bulk_in, is_bulk_out.
    destruct (endpoint_type (bmAttributes ep) =? 2); cbn [andb].
    + destruct (endpoint_direction (bEndpointAddress ep) =? ENDPOINT_IN); cbn [negb];
        rewrite IH; unfold is_bulk_in, is_bulk_out;
        [destruct ep_in | destruct ep_out]; reflexivity.
    + by rewrite IH.
Qed.

Lemma fold_interfaces (intfs : list (list usb_endpoint)) ep_in ep_out :
  fold_left (fun found intf => fold_left note_endpoint intf found) intfs (ep_in, ep_out)
  = (py_or ep_in (List.find is_bulk_in (concat intfs)),
     py_or ep_out (List.find is_bulk_out (concat intfs))).
Proof.
  revert ep_in ep_out. induction intfs as [|intf intfs IH]; intros ep_in ep_out.
  - cbn. by rewrite !py_or_None_r.
  - cbn [fold_left concat]. rewrite fold_note_endpoint, IH.
    by rewrite !find_app_py_or, !py_or_assoc.
Qed.

Section Discovery.
Context {host D : Type} `{!UsbHost host D}.
Implicit Types w : hworld host D.

(** X16.  [find_bulk_endpoints] returns the first bulk-IN endpoint and
    the first bulk endpoint of the other direction, in the order the
    interfaces and their endpoints are visited; a later endpoint of the same
    kind never replaces an earlier one, an endpoint that is not bulk is never
    returned, and a kind that does not occur gives [None].  An exception of
    [get_active_configuration] leaves the function. *)
Theorem find_bulk_endpoints_first_match w (d : D) :
  find_bulk_endpoints d w =
  match dev_get_active_configuration (h_host w) d with
  | (Ok cfg, h) =>
      (HOk (List.find is_bulk_in (concat (cfg_interfaces cfg)),
            List.find is_bulk_out (concat (cfg_interfaces cfg))),
       HWorld h (h_events w ++ [HGetConfig d]))
  | (Raise e, h) =>
      (HRaise (LibError e), HWorld h (h_events w ++ [HGetConfig d]))
  end.
Proof.
  unfold find_bulk_endpoints, hbind, hcall, hret.
  destruct (dev_get_active_configuration (h_host w) d) as [[cfg|e] h]; [|reflexivity].
  unfold scan_endpoints. by rewrite fold_interfaces.
Qed.

(** X17.  [find_device] asks for the ASM2362 first and for the ASM2364 only
    when no ASM2362 answers; it makes no other call.  The device and its
    name are returned together: both are [None], or the device is the one
    [usb.core.find] gave and the name is that of its entry. *)
Theorem find_device_prefers_asm2362 w od oname w' :
  find_device w = (HOk (od, oname), w') ->
  (exists d h,
      usb_core_find (h_host w) 0x174c 0x2362 = (Ok (Some d), h)
      /\ od = Some d /\ oname = Some "ASMedia ASM2362"%string
      /\ hnew_events w w' = [HFind 0x174c 0x2362])
  \/ (exists h1 h2 r,
        usb_core_find (h_host w) 0x174c 0x2362 = (Ok None, h1)
        /\ usb_core_find h1 0x174c 0x2364 = (Ok r, h2)
        /\ od = r
        /\ oname = (if r is Some _ then Some "ASMedia ASM2364"%string else None)
        /\ hnew_events w w' = [HFind 0x174c 0x2362; HFind 0x174c 0x2364]).
Proof.
  unfold find_device, SUPPORTED_DEVICES, find_device_in, hbind, hcall, hret, hnew_events.
  cbn [h_host h_events].
  destruct (usb_core_find (h_host w) 0x174c 0x2362) as [[[d|]|e] h1] eqn:E1;
    cbn [h_host h_events]; [| |discriminate].
  - intros [= <- <- <-]. left. exists d, h1. cbn [h_events].
    rewrite drop_app_length. repeat split.
  - destruct (usb_core_find h1 0x174c 0x2364) as [[r|e] h2] eqn:E2;
      cbn [h_host h_events]; [|discriminate].
    destruct r as [d|]; intros [= <- <- <-]; right; exists h1, h2;
      eexists; cbn [h_events]; rewrite <- app_assoc, drop_app_length;
      (split; [reflexivity|]); (split; [exact E2|]); repeat split.
Qed.

End Discovery.

Lemma find_device_prefers_asm2362_witness :
  (exists d h,
      usb_core_find host_with_bridge 0x174c 0x2362 = (Ok (Some d), h)
      /\ Some 7 = Some d /\ Some "ASMedia ASM2364"%string = Some "ASMedia ASM2362"%string
      /\ hnew_events (host_world host_with_bridge)
           (find_device (host_world host_with_bridge)).2 = [HFind 0x174c 0x2362])
  \/ (exists h1 h2 r,
        usb_core_find host_with_bridge 0x174c 0x2362 = (Ok None, h1)
        /\ usb_core_find h1 0x174c 0x2364 = (Ok r, h2)
        /\ Some 7 = r
        /\ Some "ASMedia ASM2364"%string
           = (if r is Some _ then Some "ASMedia ASM2364"%string else None)
        /\ hnew_events (host_world host_with_bridge)
             (find_device (host_world host_with_bridge)).2
           = [HFind 0x174c 0x2362; HFind 0x174c 0x2364]).
Proof.
  exact (find_device_prefers_asm2362 (host_world host_with_bridge)
           (Some 7) (Some "ASMedia ASM2364"%string)
           (find_device (host_world host_with_bridge)).2 eq_refl).
Defined.

(** ** The start of main *)

Section MainStart.
Context {host D : Type} `{!UsbHost host D}.
Implicit Types w : hworld host D.

(** X18.  Without root privileges [main] stops with [sys.exit(1)] before
    it touches the USB bus: it prints the banner and the two lines that ask
    for root, calls no operation of pyusb and leaves the host as it was. *)
Theorem not_root_exits_before_usb w :
  os_geteuid (h_host w) <> 0 ->
  main_before_send w
  = (HRaise (LibError (SystemExit 1)),
     HWorld (h_host w)
       (h_events w ++
        List.map HPrint
          [str_repeat "=" 65;
           "  Identify NVMe SSD Inside USB Enclosure (macOS)"%string;
           "  https://github.com/UnknownInconnuSpace/asm2362-identify"%string;
           str_repeat "=" 65;
           nl +:+ "ERROR: Must run as root";
           "  sudo python3 asm2362_identify.py"%string])).
Proof.
  intros Hroot. apply Z.eqb_neq in Hroot.
  unfold main_before_send, hbind, hprint, hlog, hexit, hraise.
  cbn [h_host h_events]. rewrite Hroot. cbn [negb h_host h_events List.map].
  rewrite <- !app_assoc. reflexivity.
Qed.

(** X19.  When neither an ASM2362 nor an ASM2364 is found, [main] stops
    with [sys.exit(1)] after the two calls of [usb.core.find]: no interface
    is claimed, no driver detached, nothing is reset or written. *)
Theorem no_device_exits_after_find w h1 h2 :
  os_geteuid (h_host w) = 0 ->
  usb_core_find (h_host w) 0x174c 0x2362 = (Ok None, h1) ->
  usb_core_find h1 0x174c 0x2364 = (Ok None, h2) ->
  (main_before_send w).1 = HRaise (LibError (SystemExit 1))
  /\ h_host (main_before_send w).2 = h2
  /\ usb_calls (hnew_events w (main_before_send w).2)
     = [HFind 0x174c 0x2362; HFind 0x174c 0x2364]
  /\ hprints_of (hnew_events w (main_before_send w).2)
     = [str_repeat "=" 65;
        "  Identify NVMe SSD Inside USB Enclosure (macOS)"%string;
        "  https://github.com/UnknownInconnuSpace/asm2362-identify"%string;
        str_repeat "=" 65;
        nl +:+ "Searching for ASMedia USB-NVMe bridge...";
        nl +:+ "ERROR: No supported device found!";
        nl +:+ "Supported: ASMedia ASM2362, ASM2364";
        nl +:+ "Check if your enclosure uses ASMedia:";
        "  system_profiler SPUSBDataType | grep -i 174c"%string].
Proof.
  intros Hroot Hf1 Hf2. apply Z.eqb_eq in Hroot.
  unfold main_before_send, find_device, SUPPORTED_DEVICES, find_device_in.
  unfold hbind, hcall, hprint, hlog, hexit, hraise, hret, hnew_events.
  cbn [h_host h_events]. rewrite Hroot. cbn [negb h_host h_events].
  rewrite Hf1. cbn [h_host h_events]. rewrite Hf2. cbn [h_host h_events fst snd].
  rewrite <- !app_assoc, drop_app_length. repeat split.
Qed.

End MainStart.

Lemma not_root_exits_before_usb_witness :
  main_before_send (host_world host_not_root)
  = (HRaise (LibError (SystemExit 1)),
     HWorld host_not_root
       (List.map HPrint
          [str_repeat "=" 65;
           "  Identify NVMe SSD Inside USB Enclosure (macOS)"%string;
           "  https://github.com/UnknownInconnuSpace/asm2362-identify"%string;
           str_repeat "=" 65;
           nl +:+ "ERROR: Must run as root";
           "  sudo python3 asm2362_identify.py"%string])).
Proof.
  apply (not_root_exits_before_usb (host_world host_not_root)). discriminate.
Defined.

Lemma no_device_exits_after_find_witness :
  (main_before_send (host_world host_without_bridge)).1
  = HRaise (LibError (SystemExit 1))
  /\ h_host (main_before_send (host_world host_without_bridge)).2
     = host_without_bridge
  /\ usb_calls (hnew_events (host_world host_without_bridge)
                  (main_before_send (host_world host_without_bridge)).2)
     = [HFind 0x174c 0x2362; HFind 0x174c 0x2364]
  /\ hprints_of (hnew_events (host_world host_without_bridge)
                   (main_before_send (host_world host_without_bridge)).2)
     = [str_repeat "=" 65;
        "  Identify NVMe SSD Inside USB Enclosure (macOS)"%string;
        "  https://github.com/UnknownInconnuSpace/asm2362-identify"%string;
        str_repeat "=" 65;
        nl +:+ "Searching for ASMedia USB-NVMe bridge...";
        nl +:+ "ERROR: No supported device found!";
        nl +:+ "Supported: ASMedia ASM2362, ASM2364";
        nl +:+ "Check if your enclosure uses ASMedia:";
        "  system_profiler SPUSBDataType | grep -i 174c"%string].
Proof.
  exact (no_device_exits_after_find (host_world host_without_bridge)
           host_without_bridge host_without_bridge eq_refl eq_refl eq_refl).
Defined.

(** ** Events are only added *)

Section Growth.
Context {host D : Type} `{!UsbHost host D}.
Implicit Types w : hworld host D.

Lemma grows_hret {A} (a : A) : grows (hret (host:=host) (D:=D) a).
Proof. intros w. exists []. cbn. by rewrite app_nil_r. Qed.

Lemma grows_hraise {A} e : grows (hraise (host:=host) (D:=D) (A:=A) e).
Proof. intros w. exists []. cbn. by rewrite app_nil_r. Qed.

Lemma grows_hprint text : grows (hprint (host:=host) (D:=D) text).
Proof. intros w. by exists [HPrint text]. Qed.

Lemma grows_hcall {A} ev (op : host -> result A * host) :
  grows (hcall (D:=D) ev op).
Proof.
  intros w. exists [ev]. unfold hcall. by destruct (op (h_host w)) as [[a|e] h].
Qed.

Lemma grows_hbind {A B} (m : HM host D A) (k : A -> HM host D B) :
  grows m -> (forall a, grows (k a)) -> grows (hbind m k).
Proof.
  intros Hm Hk w. unfold hbind. destruct (Hm w) as [evs Hevs].
  destruct (m w) as [[a|e] w1]; cbn [snd] in *.
  - destruct (Hk a w1) as [evs' Hevs']. exists (evs ++ evs').
    by rewrite Hevs', Hevs, app_assoc.
  - by exists evs.
Qed.

Lemma grows_try_except_pass (body : HM host D unit) :
  grows body -> grows (try_except_pass body).
Proof.
  intros Hb w. unfold try_except_pass. destruct (Hb w) as [evs Hevs].
  destruct (body w) as [[a|e] w1]; by exists evs.
Qed.

Lemma grows_try_except_Exception {A} (body : HM host D A) handler :
  grows body -> (forall msg, grows (handler msg)) ->
  grows (try_except_Exception body handler).
Proof.
  intros Hb Hh w. unfold try_except_Exception. destruct (Hb w) as [evs Hevs].
  destruct (body w) as [[a|e] w1]; cbn [snd] in *; [by exists evs|].
  destruct (as_Exception e) as [msg|]; [|by exists evs].
  destruct (Hh msg w1) as [evs' Hevs']. exists (evs ++ evs').
  by rewrite Hevs', Hevs, app_assoc.
Qed.

Lemma grows_hfor_each {A} (l : list A) (body : A -> HM host D unit) :
  (forall x, grows (body x)) -> grows (hfor_each l body).
Proof.
  intros Hb. induction l as [|x l IH]; cbn [hfor_each].
  - apply grows_hret.
  - apply grows_hbind; [apply Hb | intros _; exact IH].
Qed.

Lemma grows_find_device_in l : grows (find_device_in (host:=host) (D:=D) l).
Proof.
  induction l as [|[[vid pid] name] l IH]; cbn [find_device_in].
  - apply grows_hret.
  - apply grows_hbind; [apply grows_hcall|].
    intros [d|]; [apply grows_hret | exact IH].
Qed.

Lemma grows_find_device : grows (find_device (host:=host) (D:=D)).
Proof. apply grows_find_device_in. Qed.

Lemma grows_detach_if_active (d : D) i : grows (detach_if_active (host:=host) d i).
Proof.
  unfold detach_if_active. apply grows_hbind; [apply grows_hcall|].
  intros [|]; [apply grows_hcall | apply grows_hret].
Qed.

Lemma grows_find_bulk_endpoints (d : D) : grows (find_bulk_endpoints (host:=host) d).
Proof.
  unfold find_bulk_endpoints. apply grows_hbind; [apply grows_hcall|].
  intros cfg. apply grows_hret.
Qed.

(** The first thing the reset block does is the reset itself. *)
Lemma reset_and_rediscover_first (d : D) w :
  exists rest,
    h_events (reset_and_rediscover d w).2 = h_events w ++ HReset d :: rest.
Proof.
  unfold reset_and_rediscover. unfold hbind at 1. unfold hcall at 1.
  destruct (dev_reset (h_host w) d) as [[[]|e] h1].
  - match goal with
    | |- context [hbind ?m ?k ?w0] =>
        assert (Hg : grows (hbind m k)); [|destruct (Hg w0) as [rest Hrest]]
    end.
    { apply grows_hbind; [apply grows_hcall|]. intros _.
      apply grows_hbind; [apply grows_find_device|]. intros found.
      destruct (fst found) as [d'|]; [|apply grows_hraise].
      apply grows_hbind; [apply grows_hcall|]. intros cfg.
      apply grows_hbind.
      { apply grows_hfor_each. intros i. apply grows_try_except_pass.
        apply grows_detach_if_active. }
      intros _. apply grows_hbind; [apply grows_hcall|]. intros _.
      apply grows_find_bulk_endpoints. }
    exists rest. rewrite Hrest. cbn [h_events]. by rewrite <- app_assoc.
  - exists []. reflexivity.
Qed.

End Growth.

(** ** What a normal return of the first part of main means *)

Section MainReturn.
Context {host D : Type} `{!UsbHost host D}.
Implicit Types w : hworld host D.

Lemma try_except_pass_ok (body : HM host D unit) w :
  (try_except_pass body w).1 = HOk tt.
Proof. unfold try_except_pass. by destruct (body w) as [[[]|e] w1]. Qed.

Lemma claim_step_run (d : D) w :
  try_except_pass (hcall (HClaim d 0) (fun h => usb_util_claim_interface h d 0)) w
  = (HOk tt, HWorld (usb_util_claim_interface (h_host w) d 0).2
                    (h_events w ++ [HClaim d 0])).
Proof.
  unfold try_except_pass, hcall.
  by destruct (usb_util_claim_interface (h_host w) d 0) as [[[]|e] h].
Qed.

Lemma find_bulk_endpoints_run (d : D) w :
  find_bulk_endpoints d w =
  match dev_get_active_configuration (h_host w) d with
  | (Ok cfg, h) => (HOk (scan_endpoints cfg), HWorld h (h_events w ++ [HGetConfig d]))
  | (Raise e, h) => (HRaise (LibError e), HWorld h (h_events w ++ [HGetConfig d]))
  end.
Proof.
  unfold find_bulk_endpoints, hbind, hcall, hret.
  by destruct (dev_get_active_configuration (h_host w) d) as [[cfg|e] h].
Qed.

Lemma scan_endpoints_find cfg :
  scan_endpoints cfg
  = (List.find is_bulk_in (concat (cfg_interfaces cfg)),
     List.find is_bulk_out (concat (cfg_interfaces cfg))).
Proof. unfold scan_endpoints. by rewrite fold_interfaces. Qed.

(** A reset block that ends normally ends with the endpoint lookup on the
    device found again. *)
Lemma reset_and_rediscover_ok_inv (d : D) w eps w' :
  reset_and_rediscover d w = (HOk eps, w') ->
  exists d' cfg,
    eps = scan_endpoints cfg /\ last (h_events w') = Some (HGetConfig d').
Proof.
  unfold reset_and_rediscover. unfold hbind at 1. unfold hcall at 1.
  destruct (dev_reset (h_host w) d) as [[[]|e] h1]; [|discriminate].
  unfold hbind at 1. unfold hcall at 1. cbn [h_host h_events].
  unfold hbind at 1.
  destruct (find_device _) as [[found|e] w2]; [|discriminate].
  destruct (fst found) as [d'|]; [|discriminate].
  unfold hbind at 1. unfold hcall at 1.
  destruct (dev_get_active_configuration (h_host w2) d') as [[cfg|e] h3]; [|discriminate].
  unfold hbind at 1.
  destruct (hfor_each _ _ _) as [[[]|e] w4]; [|discriminate].
  unfold hbind at 1. unfold hcall at 1.
  destruct (usb_util_claim_interface (h_host w4) d' 0) as [[[]|e] h5]; [|discriminate].
  rewrite find_bulk_endpoints_run. cbn [h_host h_events].
  destruct (dev_get_active_configuration h5 d') as [[cfg'|e] h6]; [|discriminate].
  intros [= <- <-]. exists d', cfg'. split; [reflexivity|].
  cbn [h_events]. apply last_snoc.
Qed.

Lemma main_before_send_ok_inv w eps w' :
  main_before_send w = (HOk eps, w') ->
  os_geteuid (h_host w) = 0
  /\ exists d before after cfg,
       hnew_events w w' = before ++ HReset d :: after
       /\ In (HClaim d 0) before /\ In (HGetConfig d) before
       /\ eps = scan_endpoints cfg
       /\ ((exists a b, eps = (Some a, Some b))
           \/ exists d', last (h_events w') = Some (HGetConfig d')).
Proof.
  unfold main_before_send.
  do 4 (unfold hbind at 1; unfold hprint at 1).
  unfold hbind at 1. cbn [h_host hlog].
  destruct (os_geteuid (h_host w) =? 0) eqn:Hroot; cbn [negb].
  2:{ unfold hbind, hprint, hexit, hraise. discriminate. }
  apply Z.eqb_eq in Hroot. intros Hrun. split; [exact Hroot|]. revert Hrun.
  unfold hbind at 1; unfold hprint at 1.
  unfold hbind at 1.
  match goal with |- context [find_device ?w0] =>
    destruct (grows_find_device w0) as [ev1 Hev1];
    destruct (find_device w0) as [[found|e] w1]; [|discriminate] end.
  destruct (fst found) as [d|]; [|unfold hbind, hprint, hexit, hraise; discriminate].
  unfold hbind at 1; unfold hprint at 1.
  unfold hbind at 1.
  match goal with |- context [try_except_pass ?b ?w0] =>
    assert (Hg2 : grows (try_except_pass b));
    [|destruct (Hg2 w0) as [ev2 Hev2];
      pose proof (try_except_pass_ok b w0) as Hok2;
      destruct (try_except_pass b w0) as [r2 w2]; cbn [fst snd] in Hok2, Hev2; subst r2]
  end.
  { apply grows_try_except_pass.
    apply grows_hbind; [apply grows_hcall|]. intros m.
    apply grows_hbind; [apply grows_hprint|]. intros _.
    apply grows_hbind; [apply grows_hcall|]. intros p. apply grows_hprint. }
  unfold hbind at 1; unfold hprint at 1.
  unfold hbind at 1.
  match goal with |- context [try_except_Exception ?b ?hd ?w0] =>
    assert (Hg3 : grows (try_except_Exception b hd));
    [|destruct (Hg3 w0) as [ev3 Hev3];
      destruct (try_except_Exception b hd w0) as [[[]|e] w3]; [|discriminate];
      cbn [snd] in Hev3]
  end.
  { apply grows_try_except_Exception; [|intros msg; apply grows_hprint].
    apply grows_hbind; [apply grows_hcall|]. intros cfg.
    apply grows_hbind; [|intros _; apply grows_hprint].
    apply grows_hfor_each. intros i. apply grows_detach_if_active. }
  cbn [snd] in Hev1.
  unfold hbind at 1. rewrite claim_step_run.
  unfold hbind at 1. rewrite find_bulk_endpoints_run.
  set (h4 := (usb_util_claim_interface (h_host w3) d 0).2).
  cbn [h_host h_events].
  destruct (dev_get_active_configuration h4 d) as [[cfg|e] h5]; [|discriminate].
  destruct (scan_endpoints cfg) as [[ep_in|] [ep_out|]] eqn:Hscan;
    try (unfold hbind, hprint, hexit, hraise; discriminate).
  unfold hbind at 1; unfold hprint at 1.
  unfold try_except_Exception.
  match goal with |- context [reset_and_rediscover d ?w0] =>
    destruct (reset_and_rediscover_first d w0) as [rest Hrest];
    pose proof (reset_and_rediscover_ok_inv d w0) as Hinv;
    destruct (reset_and_rediscover d w0) as [[eps'|e] w7] end.
  - intros [= <- <-]. cbn [snd] in Hrest.
    destruct (Hinv eps' w7 eq_refl) as (d' & cfg' & Heps & Hlast).
    unfold hlog in *. cbn [h_events h_host] in *.
    exists d.
    exists (([HPrint (str_repeat "=" 65);
              HPrint "  Identify NVMe SSD Inside USB Enclosure (macOS)";
              HPrint "  https://github.com/UnknownInconnuSpace/asm2362-identify";
              HPrint (str_repeat "=" 65);
              HPrint (nl +:+ "Searching for ASMedia USB-NVMe bridge...")]
             ++ ev1 ++ [HPrint ("  Found: " +:+ str_of_optional found.2)]
             ++ ev2 ++ [HPrint (nl +:+ "Detaching macOS kernel driver...")]
             ++ ev3)
            ++ [HClaim d 0; HGetConfig d; HPrint "Resetting device..."]), rest, cfg'.
    split.
    { unfold hnew_events. rewrite Hrest, Hev3, Hev2, Hev1.
      rewrite <- !app_assoc. exact (drop_app_length (h_events w) _). }
    split; [apply in_or_app; right; cbn [In]; auto|].
    split; [apply in_or_app; right; cbn [In]; auto|].
    split; [exact Heps|]. right. by exists d'.
  - destruct (as_Exception e) as [msg|]; [|discriminate].
    unfold hbind, hprint, hret. intros [= <- <-]. cbn [snd] in Hrest.
    unfold hlog in *. cbn [h_events h_host] in *.
    exists d.
    exists (([HPrint (str_repeat "=" 65);
              HPrint "  Identify NVMe SSD Inside USB Enclosure (macOS)";
              HPrint "  https://github.com/UnknownInconnuSpace/asm2362-identify";
              HPrint (str_repeat "=" 65);
              HPrint (nl +:+ "Searching for ASMedia USB-NVMe bridge...")]
             ++ ev1 ++ [HPrint ("  Found: " +:+ str_of_optional found.2)]
             ++ ev2 ++ [HPrint (nl +:+ "Detaching macOS kernel driver...")]
             ++ ev3)
            ++ [HClaim d 0; HGetConfig d; HPrint "Resetting device..."]),
           (rest ++ [HPrint ("  Note: " +:+ msg)]), cfg.
    split.
    { unfold hnew_events. rewrite Hrest, Hev3, Hev2, Hev1.
      rewrite <- !app_assoc. exact (drop_app_length (h_events w) _). }
    split; [apply in_or_app; right; cbn [In]; auto|].
    split; [apply in_or_app; right; cbn [In]; auto|].
    split; [by rewrite Hscan|]. left. by exists ep_in, ep_out.
Qed.

End MainReturn.

Section MainReturnTheorems.
Context {host D : Type} `{!UsbHost host D}.
Implicit Types w : hworld host D.


(** X21.  Whatever the host answers, an endpoint that the first part of
    [main] returns as [ep_in] is a bulk endpoint of direction IN, and one it
    returns as [ep_out] is a bulk endpoint of the other direction. *)
Theorem returned_endpoints_are_bulk w ep_in ep_out w' :
  main_before_send w = (HOk (ep_in, ep_out), w') ->
  (forall ep, ep_in = Some ep ->
     endpoint_type (bmAttributes ep) = 2
     /\ endpoint_direction (bEndpointAddress ep) = ENDPOINT_IN)
  /\ (forall ep, ep_out = Some ep ->
        endpoint_type (bmAttributes ep) = 2
        /\ endpoint_direction (bEndpointAddress ep) <> ENDPOINT_IN).
Proof.
  intros Hrun.
  destruct (main_before_send_ok_inv w _ w' Hrun)
    as (_ & d & before & after & cfg & _ & _ & _ & Heps & _).
  rewrite scan_endpoints_find in Heps. injection Heps as -> ->.
  split; intros ep Hep; apply List.find_some in Hep as [_ Hep];
    apply andb_true_iff in Hep as [Ht Hd]; apply Z.eqb_eq in Ht;
    (split; [exact Ht|]).
  - by apply Z.eqb_eq.
  - apply negb_true_iff in Hd. by apply Z.eqb_neq.
Qed.


End MainReturnTheorems.


Lemma returned_endpoints_are_bulk_witness :
  (forall ep, Some (UsbEndpoint 0x81 0x02) = Some ep ->
     endpoint_type (bmAttributes ep) = 2
     /\ endpoint_direction (bEndpointAddress ep) = ENDPOINT_IN)
  /\ (forall ep, Some (UsbEndpoint 0x02 0x02) = Some ep ->
        endpoint_type (bmAttributes ep) = 2
        /\ endpoint_direction (bEndpointAddress ep) <> ENDPOINT_IN).
Proof.
  exact (returned_endpoints_are_bulk (host_world host_with_bridge)
           (Some (UsbEndpoint 0x81 0x02)) (Some (UsbEndpoint 0x02 0x02))
           (main_before_send (host_world host_with_bridge)).2 eq_refl).
Defined.


(** ** Whole sessions *)

Section WholeSession.
Context {dev : Type} `{!BulkEndpoints dev}.
Implicit Types w : world dev.

(** X23.  A complete round trip whose data decode to a real controller
    ends the session normally: the three transfers are made once each, the
    status bytes play no part, and the lines printed are the announcement,
    the banner, the report of the decoded record, the five rows of the dump
    and the remount hint. *)
Theorem session_succeeds w n d1 data d2 csw d3 r :
  ep_out_write (w_dev w) (cbw_image (tag_of_ms (w_now_ms w))) 5000 = (Ok n, d1) ->
  ep_in_read d1 4096 5000 = (Ok data, d2) ->
  ep_in_read d2 13 5000 = (Ok csw, d3) ->
  parse_identify data = Ok (Some r) ->
  vid r <> 0 ->
  vid r <> 0xFFFF ->
  exists rows,
    (main_from_send w).1 = Ok tt
    /\ w_dev (main_from_send w).2 = d3
    /\ transfers_of (new_events w (main_from_send w).2)
       = round_trip (cbw_image (tag_of_ms (w_now_ms w)))
    /\ mapM_result (dump_row data) dump_starts = Ok rows
    /\ prints_of (new_events w (main_from_send w).2)
       = [nl +:+ "Sending NVMe Identify command...";
          nl +:+ str_repeat "=" 65; "  REAL SSD IDENTITY"%string;
          str_repeat "=" 65; report r; str_repeat "=" 65;
          nl +:+ "Raw data (first 80 bytes):"]
         ++ rows
         ++ [nl +:+ "Remount drive with: diskutil mountDisk /dev/diskN"].
Proof.
  intros Hw Hr1 Hr2 Hp Hv0 Hvf.
  rewrite main_from_send_unfold.
  rewrite (send_after_data (log _ w) n d1 data d2 (Ok csw) d3 Hw Hr1 Hr2).
  cbv beta iota zeta.
  match goal with |- context [main_after_send (Some data) ?w1] =>
    destruct (main_after_send_valid w1 data r Hp Hv0 Hvf)
      as (rows & Hrows & _ & Hrun) end.
  exists rows. rewrite Hrun. unfold log. cbn [fst snd w_dev w_now_ms w_trace].
  rewrite <- !app_assoc, new_events_app.
  split; [reflexivity|]. split; [reflexivity|].
  assert (Hprints : forall l, prints_of (List.map EvPrint l) = l).
  { induction l as [|x l IH]; [reflexivity|]. cbn. f_equal. exact IH. }
  assert (Htrans : forall l, transfers_of (List.map EvPrint l) = []).
  { induction l as [|x l IH]; [reflexivity|]. exact IH. }
  split; [|split; [exact Hrows|]].
  - unfold transfers_of in *. rewrite !List.filter_app, Htrans. reflexivity.
  - unfold prints_of in *. rewrite !omap_app, Hprints. reflexivity.
Qed.

(** X24.  When the status read raises a [USBError], the data already
    received are thrown away: [send_nvme_identify] returns [None] and the
    session ends with "ERROR: No response from drive" and [sys.exit(1)],
    whatever the 4096-byte read returned. *)
Theorem status_failure_discards_data w n d1 data d2 e d3 msg :
  ep_out_write (w_dev w) (cbw_image (tag_of_ms (w_now_ms w))) 5000 = (Ok n, d1) ->
  ep_in_read d1 4096 5000 = (Ok data, d2) ->
  ep_in_read d2 13 5000 = (Raise e, d3) ->
  as_USBError e = Some msg ->
  (main_from_send w).1 = Raise (SystemExit 1)
  /\ prints_of (new_events w (main_from_send w).2)
     = [nl +:+ "Sending NVMe Identify command...";
        "USB Error: " +:+ msg;
        nl +:+ "ERROR: No response from drive"].
Proof.
  intros Hw Hr1 Hr2 He. rewrite main_from_send_unfold.
  rewrite (send_after_data (log _ w) n d1 data d2 (Raise e) d3 Hw Hr1 Hr2).
  cbv zeta. rewrite He. unfold log. cbn [w_dev w_now_ms w_trace].
  unfold main_after_send, not_data. cbv beta iota.
  unfold bind, print, sys_exit, raise, log. cbn [fst snd w_dev w_now_ms w_trace].
  rewrite <- !app_assoc, new_events_app. split; reflexivity.
Qed.

End WholeSession.

Lemma session_succeeds_witness :
  exists rows,
    (main_from_send world_samsung).1 = Ok tt
    /\ w_dev (main_from_send world_samsung).2 = SimDev (Ok 31) []
    /\ transfers_of (new_events world_samsung (main_from_send world_samsung).2)
       = round_trip (cbw_image (tag_of_ms 0))
    /\ mapM_result (dump_row samsung_buffer) dump_starts = Ok rows
    /\ prints_of (new_events world_samsung (main_from_send world_samsung).2)
       = [nl +:+ "Sending NVMe Identify command...";
          nl +:+ str_repeat "=" 65; "  REAL SSD IDENTITY"%string;
          str_repeat "=" 65; report samsung_identity; str_repeat "=" 65;
          nl +:+ "Raw data (first 80 bytes):"]
         ++ rows
         ++ [nl +:+ "Remount drive with: diskutil mountDisk /dev/diskN"].
Proof.
  apply (session_succeeds world_samsung 31
           (SimDev (Ok 31) [Ok samsung_buffer; Ok good_csw])
           samsung_buffer (SimDev (Ok 31) [Ok good_csw]) good_csw
           (SimDev (Ok 31) []) samsung_identity).
  - reflexivity.
  - reflexivity.
  - reflexivity.
  - vm_compute. reflexivity.
  - discriminate.
  - discriminate.
Defined.

Lemma status_failure_discards_data_witness :
  (main_from_send world_status_timeout).1 = Raise (SystemExit 1)
  /\ prints_of (new_events world_status_timeout
                  (main_from_send world_status_timeout).2)
     = [nl +:+ "Sending NVMe Identify command...";
        "USB Error: " +:+ "Operation timed out";
        nl +:+ "ERROR: No response from drive"].
Proof.
  exact (status_failure_discards_data world_status_timeout 31
           (SimDev (Ok 31) [Ok samsung_buffer;
                            Raise (USBTimeoutError "Operation timed out")])
           samsung_buffer
           (SimDev (Ok 31) [Raise (USBTimeoutError "Operation timed out")])
           (USBTimeoutError "Operation timed out") (SimDev (Ok 31) [])
           "Operation timed out" eq_refl eq_refl eq_refl eq_refl).
Defined.
